(** * The in-guest supervisor (tether): child reaper and Toolbox extension

    A shallow embedding of [childReaper] / [stopReaper] (package tether,
    the reaper file) and of the Toolbox extension (lib/tether/toolbox.go).

    Go code that threads state through calls is written in a small
    state-and-panic monad; goroutine-shared objects (sessions, channels,
    the pid table) live in an explicit world record.  The per-session
    mutex [session.m] only serialises critical sections; every section
    below runs atomically, so Lock/Unlock are not represented. *)

From stdpp Require Import base gmap strings list.
From Stdlib Require Import ZArith Lia.

Local Open Scope string_scope.
Local Open Scope Z_scope.
Local Open Scope list_scope.

(** ** Go runtime pieces shared by both files *)

Module Go.

(** A reference to a heap object; [None] is Go's nil pointer. *)
Abbreviation loc := positive (only parsing).
Abbreviation ptr := (option positive) (only parsing).

Inductive Level := Debug | Info | Warn | Error.

(** Go [error] values and the arguments of a format string. *)
Inductive error :=
| errors_New (text : string)
| fmt_Errorf (format : string) (args : list Arg)
| syscall_Errno (e : Z)
with Arg :=
| AInt (z : Z)
| AStr (s : string)
| ABool (b : bool)
| APtr (p : ptr)
| AErr (e : error).

(** Observable effects, in program order. *)
Inductive Event :=
| ELog (lvl : Level) (format : string) (args : list Arg)
| EPrintf (format : string) (args : list Arg)
| ETraceBegin (msg : string)
| ETraceEnd (msg : string)
| ESignalNotify (sig : Z)
| ESignalReset (sig : Z)
| EClose (ch : string)
| EPrctl (option_ arg2 : Z)
| EWait4 (pid options wpid wstatus : Z) (err : option Z)
| EProcessSignal (pid sig : Z)
| EProcessKill (pid : Z)
| ECall (name : string)
| EGo (name : string).

(** Outcome of running a piece of Go code from a world [W]: it returns a
    value, it panics with a value, or the interpreter's fuel ran out
    before an unbounded [for] finished. *)
Inductive Res (W A : Type) :=
| Ok (a : A) (w : W)
| Panic (v : string) (w : W)
| OutOfFuel.
Arguments Ok {W A} a w.
Arguments Panic {W A} v w.
Arguments OutOfFuel {W A}.

Definition M (W A : Type) := W -> Res W A.

Definition ret {W A} (a : A) : M W A := fun w => Ok a w.

Definition bind {W A B} (m : M W A) (k : A -> M W B) : M W B :=
  fun w => match m w with
           | Ok a w' => k a w'
           | Panic v w' => Panic v w'
           | OutOfFuel => OutOfFuel
           end.

Definition panic {W A} (v : string) : M W A := fun w => Panic v w.

Definition gets {W A} (f : W -> A) : M W A := fun w => Ok (f w) w.
Definition modify {W} (f : W -> W) : M W unit := fun w => Ok tt (f w).

(** [defer func() { if r := recover(); r != nil { h(r) } }()] around [body]:
    a panic of the body is stopped, [h] runs on its value, and the
    enclosing function returns normally. *)
Definition with_recover {W} (body : M W unit) (h : string -> M W unit) : M W unit :=
  fun w => match body w with
           | Ok _ w' => Ok tt w'
           | Panic v w' => h v w'
           | OutOfFuel => OutOfFuel
           end.

(** [defer d] around [body]: [d] runs when the body returns and also
    when it panics, after which the panic continues. *)
Definition with_defer {W A} (body : M W A) (d : M W unit) : M W A :=
  fun w => match body w with
           | Ok a w' => match d w' with
                        | Ok _ w'' => Ok a w''
                        | Panic v w'' => Panic v w''
                        | OutOfFuel => OutOfFuel
                        end
           | Panic v w' => match d w' with
                           | Ok _ w'' => Panic v w''
                           | Panic v' w'' => Panic v' w''
                           | OutOfFuel => OutOfFuel
                           end
           | OutOfFuel => OutOfFuel
           end.

Definition nil_deref : string :=
  "runtime error: invalid memory address or nil pointer dereference".

(** A channel: buffered values, capacity, and whether it was closed.
    A nil channel is [None] at the use site. *)
Record chan (A : Type) := mkchan { buf : list A; cap : nat; closed : bool }.
Arguments mkchan {A} buf cap closed.
Arguments buf {A} c.
Arguments cap {A} c.
Arguments closed {A} c.

(** [make(chan A, n)] *)
Definition make_chan {A} (n : nat) : chan A := mkchan [] n false.

(** Whether [<-c] can proceed at once: a value is buffered or the channel
    is closed.  Receiving from a nil channel never proceeds. *)
Definition recv_ready {A} (c : option (chan A)) : bool :=
  match c with
  | None => false
  | Some c => match buf c with
              | _ :: _ => true
              | [] => closed c
              end
  end.

(** [close(c)]: panics on a nil or an already closed channel. *)
Definition close_chan {A} (c : option (chan A)) : string + chan A :=
  match c with
  | None => inl "close of nil channel"
  | Some c => if closed c then inl "close of closed channel"
              else inr (mkchan (buf c) (cap c) true)
  end.

(** [time.Duration] counts nanoseconds. *)
Definition time_Second : Z := 1000000000.

End Go.

Export Go.

Declare Scope go_scope.
Delimit Scope go_scope with go.
Notation "x <- m ;; k" := (bind m (fun x => k))
  (at level 200, m at level 99, k at level 200, right associativity,
   format "'[v' x  <-  m  ;; '/' k ']'") : go_scope.
Notation "m ;;; k" := (bind m (fun _ => k))
  (at level 200, k at level 200, right associativity,
   format "'[v' m  ;;; '/' k ']'") : go_scope.
Local Open Scope go_scope.

(** ** package syscall (linux): wait status *)

Module Syscall.

Definition WaitStatus := Z.

Definition mask : Z := 0x7F.
Definition core : Z := 0x80.
Definition exited : Z := 0x00.
Definition stopped : Z := 0x7F.
Definition shift : Z := 8.

Definition Exited (w : WaitStatus) : bool := Z.land w mask =? exited.

Definition Signaled (w : WaitStatus) : bool :=
  negb (Z.land w mask =? stopped) && negb (Z.land w mask =? exited).

Definition Stopped (w : WaitStatus) : bool := Z.land w 0xFF =? stopped.

Definition Continued (w : WaitStatus) : bool := w =? 0xFFFF.

Definition ExitStatus (w : WaitStatus) : Z :=
  if negb (Exited w) then -1 else Z.land (Z.shiftr w shift) 0xFF.

Definition WNOHANG : Z := 0x1.
Definition WUNTRACED : Z := 0x2.
Definition WCONTINUED : Z := 0x8.

Definition ECHILD : Z := 0xa.
Definition SIGCHLD : Z := 0x11.
Definition SIGKILL : Z := 0x9.
Definition SYS_PRCTL : Z := 157.

End Syscall.

(** ** Sessions *)

(** The fields of [SessionConfig] that the two files read or write.
    [Process] is [session.Cmd.Process]: the pid of the launched process,
    nil before launch. *)
Record SessionConfig := mkSession {
  ID : string;
  StopSignal : string;
  ExitStatus : Z;
  Process : option Z
}.

Definition set_ExitStatus (x : Z) (s : SessionConfig) : SessionConfig :=
  mkSession (ID s) (StopSignal s) x (Process s).

(** ** The child reaper *)

Module Reaper.
Import Syscall.

Definition SetChildSubreaper : Z := 0x24.

(** What the kernel answers to one non-blocking [wait4(-1, ...)]: a child
    whose state changed, or a failure with an errno. *)
Inductive wait4_result :=
| Reported (wpid : Z) (wstatus : WaitStatus)
| Failed (errno : Z).

(** The tether fields the reaper uses ([incoming], [done],
    [childPidTable]), the session objects they point to, and the part of
    the operating system the reaper talks to:
    - [notifying]: SIGCHLD is relayed to [incoming] (os/signal);
    - [pending]: the answers the kernel has ready for successive
      [wait4] calls, oldest first; once they are used up [wait4]
      reports pid 0 while [children_left], and ECHILD otherwise;
    - [prctl_errno]: errno of the PR_SET_CHILD_SUBREAPER call, 0 on
      success. *)
Record World := mkWorld {
  trace : list Event;
  sessions : gmap loc SessionConfig;
  childPidTable : gmap Z ptr;
  incoming : option (chan Z);
  done : option (chan unit);
  notifying : bool;
  pending : list wait4_result;
  children_left : bool;
  prctl_errno : Z
}.

Definition upd_trace (f : list Event -> list Event) (w : World) : World :=
  mkWorld (f (trace w)) (sessions w) (childPidTable w) (incoming w) (done w)
          (notifying w) (pending w) (children_left w) (prctl_errno w).

Definition upd_sessions (f : gmap loc SessionConfig -> gmap loc SessionConfig)
    (w : World) : World :=
  mkWorld (trace w) (f (sessions w)) (childPidTable w) (incoming w) (done w)
          (notifying w) (pending w) (children_left w) (prctl_errno w).

Definition upd_childPidTable (f : gmap Z ptr -> gmap Z ptr) (w : World) : World :=
  mkWorld (trace w) (sessions w) (f (childPidTable w)) (incoming w) (done w)
          (notifying w) (pending w) (children_left w) (prctl_errno w).

Definition set_incoming (c : option (chan Z)) (w : World) : World :=
  mkWorld (trace w) (sessions w) (childPidTable w) c (done w)
          (notifying w) (pending w) (children_left w) (prctl_errno w).

Definition set_done (c : option (chan unit)) (w : World) : World :=
  mkWorld (trace w) (sessions w) (childPidTable w) (incoming w) c
          (notifying w) (pending w) (children_left w) (prctl_errno w).

Definition set_notifying (b : bool) (w : World) : World :=
  mkWorld (trace w) (sessions w) (childPidTable w) (incoming w) (done w)
          b (pending w) (children_left w) (prctl_errno w).

Definition set_pending (q : list wait4_result) (w : World) : World :=
  mkWorld (trace w) (sessions w) (childPidTable w) (incoming w) (done w)
          (notifying w) q (children_left w) (prctl_errno w).

Definition emit (e : Event) : M World unit :=
  modify (upd_trace (fun t => t ++ [e])).

Definition log (lvl : Level) (format : string) (args : list Arg) : M World unit :=
  emit (ELog lvl format args).

(** [signal.Notify(t.incoming, sig)]; os/signal panics on a nil channel. *)
Definition signal_Notify (sig : Z) : M World unit :=
  fun w => match incoming w with
           | None => Panic "os/signal: Notify using nil channel" w
           | Some _ => emit (ESignalNotify sig) (set_notifying true w)
           end.

(** [signal.Reset(sig)] *)
Definition signal_Reset (sig : Z) : M World unit :=
  fun w => emit (ESignalReset sig) (set_notifying false w).

(** [syscall.RawSyscall(syscall.SYS_PRCTL, option, arg2, 0)], third result *)
Definition prctl (option_ arg2 : Z) : M World Z :=
  fun w => Ok (prctl_errno w) (upd_trace (fun t => t ++ [EPrctl option_ arg2]) w).

(** [syscall.Wait4(pid, &status, options, nil)] with WNOHANG among the
    options: never blocks.  The status written through the pointer is
    returned with the pid; Go writes 0 there when the kernel reports
    nothing. *)
Definition Wait4 (pid options : Z) : M World (Z * WaitStatus * option Z) :=
  fun w =>
    match pending w with
    | Reported p st :: q =>
        Ok (p, st, None)
           (upd_trace (fun t => t ++ [EWait4 pid options p st None]) (set_pending q w))
    | Failed e :: q =>
        Ok (-1, 0, Some e)
           (upd_trace (fun t => t ++ [EWait4 pid options (-1) 0 (Some e)]) (set_pending q w))
    | [] =>
        if children_left w
        then Ok (0, 0, None) (upd_trace (fun t => t ++ [EWait4 pid options 0 0 None]) w)
        else Ok (-1, 0, Some ECHILD)
                (upd_trace (fun t => t ++ [EWait4 pid options (-1) 0 (Some ECHILD)]) w)
    end.

(** [select { case <-t.done: (true) default: (false) }] *)
Definition select_done : M World bool :=
  fun w => match done w with
           | None => Ok false w
           | Some c => match buf c with
                       | _ :: q => Ok true (set_done (Some (mkchan q (cap c) (closed c))) w)
                       | [] => Ok (closed c) w
                       end
           end.

(** [close(t.done)] and [close(t.incoming)] *)
Definition close_done : M World unit :=
  fun w => match close_chan (done w) with
           | inl v => Panic v w
           | inr c => emit (EClose "done") (set_done (Some c) w)
           end.

Definition close_incoming : M World unit :=
  fun w => match close_chan (incoming w) with
           | inl v => Panic v w
           | inr c => emit (EClose "incoming") (set_incoming (Some c) w)
           end.

(** One step of [for range t.incoming]. *)
Inductive Recv := RecvValue (sig : Z) | RecvClosed | RecvBlocks.

Definition range_incoming : M World Recv :=
  fun w => match incoming w with
           | None => Ok RecvBlocks w
           | Some c => match buf c with
                       | s :: q => Ok (RecvValue s)
                                      (set_incoming (Some (mkchan q (cap c) (closed c))) w)
                       | [] => Ok (if closed c then RecvClosed else RecvBlocks) w
                       end
           end.

(** Modelled from the spec: [removeChildPid] is called by [childReaper]
    but its body is not among the sources.  Section 4.1 gives the Session
    Table's [Remove(pid) -> (session, found)], after which the pid must
    not be found again; the table is Go's [map[int]*SessionConfig]. *)
Definition removeChildPid (pid : Z) : M World (ptr * bool) :=
  fun w => match childPidTable w !! pid with
           | Some session => Ok (session, true) (upd_childPidTable (delete pid) w)
           | None => Ok (None, false) (upd_childPidTable (delete pid) w)
           end.

(** [session.m.Lock(); session.ExitStatus = x; session.m.Unlock()] *)
Definition store_ExitStatus (session : ptr) (x : Z) : M World unit :=
  fun w => match session with
           | None => Panic nil_deref w
           | Some l => match sessions w !! l with
                       | None => Panic nil_deref w
                       | Some s => Ok tt (upd_sessions (insert l (set_ExitStatus x s)) w)
                       end
           end.

Inductive Ctl := Continue | Break | Return.

Definition is_errno (err : option Z) (e : Z) : bool :=
  match err with
  | Some e' => e' =? e
  | None => false
  end.

Definition flag : Z := Z.lor (Z.lor WNOHANG WUNTRACED) WCONTINUED.

Section WithCallback.

(** [t.handleSessionExit]: the exit-completion callback.  Its body is not
    among the sources; it may change anything in the world and may panic. *)
Variable handleSessionExit : ptr -> M World unit.

(** The body of the inner [for] of [childReaper] (lines 84-125); the
    result says how the iteration leaves the loop. *)
Definition reap_iteration : M World Ctl :=
  log Debug "Inspecting children with status change" [] ;;;
  shutdown <- select_done ;;
  if shutdown then
    log Error "Someone called shutdown, bailing out" [] ;;;
    ret Return
  else
    r <- Wait4 (-1) flag ;;
    let '(pid, status, err) := r in
    if (pid =? 0) || is_errno err ECHILD then
      log Debug "No more child processes to reap" [] ;;;
      ret Break
    else
      match err with
      | Some e =>
          log Warn "Wait4 got error: %v\n" [AErr (syscall_Errno e)] ;;;
          ret Break
      | None =>
          if negb (Exited status) && negb (Signaled status) then
            log Debug "Received notifcation about non-exit status change for %d: %d"
                [AInt pid; AInt status] ;;;
            ret Continue
          else
            log Debug "Reaped process %d, return code: %d"
                [AInt pid; AInt (Syscall.ExitStatus status)] ;;;
            r <- removeChildPid pid ;;
            let '(session, ok) := r in
            log Debug "Remove child pid: %d session: %#+v ok: %t"
                [AInt pid; APtr session; ABool ok] ;;;
            if ok then
              store_ExitStatus session (Syscall.ExitStatus status) ;;;
              handleSessionExit session ;;;
              ret Continue
            else
              log Warn "Reaped zombie process PID %d" [AInt pid] ;;;
              ret Continue
      end.

(** [for { ... }]: repeats the body until it breaks or returns. *)
Fixpoint for_loop (fuel : nat) (body : M World Ctl) : M World Ctl :=
  match fuel with
  | O => fun _ => OutOfFuel
  | S n => c <- body ;;
           match c with
           | Continue => for_loop n body
           | Break => ret Break
           | Return => ret Return
           end
  end.

(** The closure run for one notification (lines 74-127): the drain loop
    under the deferred [recover].  Nothing follows the loop, so [break]
    and [return] both end the closure. *)
Definition handle_notification (fuel : nat) : M World unit :=
  with_recover
    (_ <- for_loop fuel reap_iteration ;; ret tt)
    (fun r => emit (EPrintf "Recovered in childReaper %v" [AStr r])).

(** The reaper goroutine (lines 69-130).  [Suspended]: it is parked in
    [range t.incoming] until the next notification. *)
Inductive Parked := Suspended | Finished.

Fixpoint reaper_goroutine (fuel drain_fuel : nat) : M World Parked :=
  match fuel with
  | O => fun _ => OutOfFuel
  | S n =>
      r <- range_incoming ;;
      match r with
      | RecvValue _ =>
          handle_notification drain_fuel ;;;
          reaper_goroutine n drain_fuel
      | RecvClosed =>
          log Info "Stopped reaping child processes" [] ;;;
          ret Finished
      | RecvBlocks => ret Suspended
      end
  end.

End WithCallback.

(** [childReaper] up to the start of the goroutine (lines 46-133). *)
Definition childReaper : M World (option Z) :=
  signal_Notify SIGCHLD ;;;
  err <- prctl SetChildSubreaper 1 ;;
  if negb (err =? 0) then ret (Some err)
  else
    log Info "Started reaping child processes" [] ;;;
    emit (EGo "childReaper") ;;;
    ret None.

(** [stopReaper] (lines 135-149). *)
Definition stopReaper : M World unit :=
  emit (ETraceBegin "Shutting down child reaping") ;;;
  with_defer
    (log Debug "Removing the signal notifier" [] ;;;
     signal_Reset SIGCHLD ;;;
     log Debug "Signalling the child reaper loop" [] ;;;
     close_done ;;;
     log Debug "Closing the reapers signal channel" [] ;;;
     close_incoming)
    (emit (ETraceEnd "Shutting down child reaping")).

End Reaper.

(** ** The Toolbox extension *)

Module Toolbox.
Import Syscall.

(** [ssh.SIGTERM] of golang.org/x/crypto/ssh *)
Definition ssh_SIGTERM : string := "TERM".

(** [msgs.SignalMsg] *)
Record SignalMsg := mkSignalMsg { Signal : string }.

(** [toolbox.VixUserCredentialNamePassword] *)
Record VixUserCredentialNamePassword := mkCredential {
  Name : string;
  Password : string
}.

(** [toolbox.VixMsgStartProgramRequest] *)
Record VixMsgStartProgramRequest := mkStartProgram {
  ProgramPath : string;
  Arguments : string
}.

(** [ExecutorConfig]: its [ID] (here [ExecutorID], the name [ID] being
    taken by the session's field) and its [Sessions] map, which may be
    nil.  A key that is absent reads as the nil pointer. *)
Record ExecutorConfig := mkExecutorConfig {
  ExecutorID : string;
  Sessions : option (gmap string ptr)
}.

(** The Toolbox fields ([sess.session], [stop]), the session objects, a
    clock, and what the outside does while the extension runs:
    - [service_start]: the result of [t.Service.Start()];
    - [power_on_after]: how long after [Start] begins to wait the vmx
      sends OS_PowerOn (the handler then closes [on]); [None] if never;
    - [stop_after]: how long after [halt] begins to wait [Stop] closes
      [t.stop]; [None] if never;
    - [tie]: the case a [select] takes when both become ready at the
      same instant ([true]: the channel, [false]: the timer);
    - [os_signal now pid sig]: the result of [os.Process.Signal] for
      that process at that time. *)
Record World := mkWorld {
  trace : list Event;
  sessions : gmap loc SessionConfig;
  sess_session : ptr;
  stop : option (chan unit);
  now : Z;
  service_start : option error;
  power_on_after : option Z;
  stop_after : option Z;
  tie : bool;
  os_signal : Z -> Z -> Z -> option error
}.

Definition upd_trace (f : list Event -> list Event) (w : World) : World :=
  mkWorld (f (trace w)) (sessions w) (sess_session w) (stop w) (now w)
          (service_start w) (power_on_after w) (stop_after w) (tie w) (os_signal w).

Definition set_sess_session (p : ptr) (w : World) : World :=
  mkWorld (trace w) (sessions w) p (stop w) (now w)
          (service_start w) (power_on_after w) (stop_after w) (tie w) (os_signal w).

Definition set_stop (c : option (chan unit)) (w : World) : World :=
  mkWorld (trace w) (sessions w) (sess_session w) c (now w)
          (service_start w) (power_on_after w) (stop_after w) (tie w) (os_signal w).

Definition advance (d : Z) (w : World) : World :=
  mkWorld (trace w) (sessions w) (sess_session w) (stop w) (now w + Z.max 0 d)
          (service_start w) (power_on_after w) (stop_after w) (tie w) (os_signal w).

Definition emit (e : Event) : M World unit :=
  modify (upd_trace (fun t => t ++ [e])).

Definition log (lvl : Level) (format : string) (args : list Arg) : M World unit :=
  emit (ELog lvl format args).

(** [t.Service.Start()] *)
Definition Service_Start : M World (option error) :=
  fun w => Ok (service_start w) (upd_trace (fun t => t ++ [ECall "Service.Start"]) w).

(** Whether an event due after [t] is taken by a [select] whose timer
    fires after [d]. *)
Definition before_timer (t d : Z) (tie_ : bool) : bool :=
  (t <? d) || ((t =? d) && tie_).

(** [select { case <-on: (true) case <-time.After(d): (false) }] in
    [Start], where [on] was just made and is closed by the PowerOn
    handler, which first logs that the service is ready. *)
Definition select_on_or_after (d : Z) : M World bool :=
  fun w => match power_on_after w with
           | Some t =>
               if before_timer t d (tie w)
               then Ok true
                       (upd_trace
                          (fun tr => tr ++ [ELog Info
                             "toolbox: service is ready (power on event received)" []])
                          (advance t w))
               else Ok false (advance d w)
           | None => Ok false (advance d w)
           end.

(** [select { case <-t.stop: (true) case <-time.After(d): (false) }] in
    [halt].  A closed [t.stop] is taken at once; a nil one never. *)
Definition select_stop_or_after (d : Z) : M World bool :=
  fun w => match stop w with
           | None => Ok false (advance d w)
           | Some c =>
               match buf c with
               | _ :: q => Ok true (set_stop (Some (mkchan q (cap c) (closed c))) w)
               | [] =>
                   if closed c then Ok true w
                   else match stop_after w with
                        | Some t =>
                            if before_timer t d (tie w)
                            then Ok true (advance t (set_stop (Some (mkchan [] (cap c) true)) w))
                            else Ok false (advance d w)
                        | None => Ok false (advance d w)
                        end
               end
           end.

(** [close(t.stop)] *)
Definition close_stop : M World unit :=
  fun w => match close_chan (stop w) with
           | inl v => Panic v w
           | inr c => emit (EClose "stop") (set_stop (Some c) w)
           end.

(** [*session]: the object a session pointer refers to. *)
Definition deref (session : ptr) : M World SessionConfig :=
  fun w => match session with
           | None => Panic nil_deref w
           | Some l => match sessions w !! l with
                       | None => Panic nil_deref w
                       | Some s => Ok s w
                       end
           end.

(** [p.Signal(sig)] on [session.Cmd.Process] *)
Definition Process_Signal (p : option Z) (sig : Z) : M World (option error) :=
  fun w => match p with
           | None => Panic nil_deref w
           | Some pid =>
               match os_signal w (now w) pid sig with
               | Some e => Ok (Some e) w
               | None => Ok None (upd_trace (fun t => t ++ [EProcessSignal pid sig]) w)
               end
           end.

(** [p.Kill()]: os sends SIGKILL through the same path as [Signal]. *)
Definition Process_Kill (p : option Z) : M World (option error) :=
  fun w => match p with
           | None => Panic nil_deref w
           | Some pid =>
               match os_signal w (now w) pid SIGKILL with
               | Some e => Ok (Some e) w
               | None => Ok None (upd_trace (fun t => t ++ [EProcessKill pid]) w)
               end
           end.

Section WithMsgs.

(** [sig.FromString(name)] and [sig.Signum()] of cmd/tether/msgs, and
    [c.UnmarshalBinary(data)] of pkg/vsphere/toolbox: their bodies are not
    among the sources.  [FromString] gives the error, or the message it
    filled in. *)
Variable FromString : string -> error + SignalMsg.
Variable Signum : SignalMsg -> Z.
Variable UnmarshalBinary : list Byte.byte -> error + VixUserCredentialNamePassword.
Variable VixCommandRequestHeader : Type.

(** [Start] (lines 57-83) *)
Definition Start : M World (option error) :=
  modify (set_stop (Some (make_chan 0))) ;;;
  err <- Service_Start ;;
  match err with
  | Some e => ret (Some e)
  | None =>
      log Info "toolbox: waiting for initialization" [] ;;;
      on <- select_on_or_after time_Second ;;
      (if on then ret tt
       else log Warn "toolbox: timeout waiting for power on event" []) ;;;
      ret None
  end.

(** [Stop] (lines 86-94) *)
Definition Stop : M World (option error) :=
  emit (ECall "Service.Stop") ;;;
  emit (ECall "Service.Wait") ;;;
  close_stop ;;;
  ret None.

(** [Reload] (lines 97-105) *)
Definition Reload (config : option ExecutorConfig) : M World (option error) :=
  match config with
  | Some c =>
      match Sessions c with
      | Some m => modify (set_sess_session (default None (m !! ExecutorID c)))
      | None => ret tt
      end
  | None => ret tt
  end ;;;
  ret None.

(** [session] (lines 118-122) *)
Definition session : M World ptr := gets sess_session.

(** [killHelper] (lines 135-155) *)
Definition killHelper (session : ptr) (name : string) : M World (option error) :=
  let name := if String.eqb name "" then ssh_SIGTERM else name in
  match FromString name with
  | inl err => ret (Some err)
  | inr sig =>
      let num := Signum sig in
      s <- deref session ;;
      log Info "sending signal %s (%d) to %s"
          [AStr (Signal sig); AInt num; AStr (ID s)] ;;;
      err <- Process_Signal (Process s) num ;;
      match err with
      | Some e => ret (Some (fmt_Errorf "failed to signal %s: %s" [AStr (ID s); AErr e]))
      | None => ret None
      end
  end.

(** [kill] (lines 124-133) *)
Definition kill (name : string) : M World (option error) :=
  session <- session ;;
  match session with
  | None => ret (Some (fmt_Errorf "failed to kill container: process not found" []))
  | Some _ => killHelper session name
  end.

(** [containerAuthenticate] (lines 157-177) *)
Definition containerAuthenticate (_ : VixCommandRequestHeader) (data : list Byte.byte)
    : M World (option error) :=
  match UnmarshalBinary data with
  | inl err => ret (Some err)
  | inr c =>
      session <- session ;;
      match session with
      | None => ret (Some (errors_New "not yet initialized"))
      | Some _ =>
          s <- deref session ;;
          if negb (String.eqb (Name c) (ID s))
          then ret (Some (errors_New "failed to verify container ID"))
          else ret None
      end
  end.

(** [containerStartCommand] (lines 179-186); [r] is a pointer. *)
Definition containerStartCommand (r : option VixMsgStartProgramRequest)
    : M World (Z * option error) :=
  match r with
  | None => panic nil_deref
  | Some r =>
      if String.eqb (ProgramPath r) "kill"
      then err <- kill (Arguments r) ;; ret (-1, err)
      else ret (-1, Some (fmt_Errorf "unknown command %q" [AStr (ProgramPath r)]))
  end.

(** [halt] (lines 188-215) *)
Definition halt : M World (option error) :=
  session <- session ;;
  match session with
  | None => ret (Some (fmt_Errorf "failed to halt container: not initialized yet" []))
  | Some _ =>
      s <- deref session ;;
      log Info "stopping %s" [AStr (ID s)] ;;;
      err <- killHelper session (StopSignal s) ;;
      match err with
      | Some e => ret (Some e)
      | None =>
          stopped <- select_stop_or_after (time_Second * 10) ;;
          if stopped then
            log Info "%s has stopped" [AStr (ID s)] ;;;
            ret None
          else
            log Warn "killing %s" [AStr (ID s)] ;;;
            Process_Kill (Process s)
      end
  end.

End WithMsgs.

End Toolbox.

(** ** Sample instances of the absent helpers, used to run the model on
    concrete inputs *)

Module Sample.
Import Toolbox.

(** A two-entry signal table in the shape of [FromString]/[Signum]. *)
Definition FromString (name : string) : error + SignalMsg :=
  if String.eqb name "TERM" then inr (mkSignalMsg "TERM")
  else if String.eqb name "KILL" then inr (mkSignalMsg "KILL")
  else inl (fmt_Errorf "unsupported signal name: %s" [AStr name]).

Definition Signum (sig : SignalMsg) : Z :=
  if String.eqb (Signal sig) "TERM" then 15
  else if String.eqb (Signal sig) "KILL" then 9
  else 0.

(** A decoder that reads the payload as the credential name and rejects
    the empty payload. *)
Definition UnmarshalBinary (data : list Byte.byte)
    : error + VixUserCredentialNamePassword :=
  match data with
  | [] => inl (errors_New "EOF")
  | _ => inr (mkCredential (String.string_of_list_byte data) "")
  end.

(** A callback that only leaves a record of the call. *)
Definition handleSessionExit (session : ptr) : M Reaper.World unit :=
  Reaper.emit (ECall "handleSessionExit").

(** A callback that asks for shutdown, as the exit of the primary
    session does. *)
Definition handleSessionExit_stopping (session : ptr) : M Reaper.World unit :=
  bind (Reaper.emit (ECall "handleSessionExit")) (fun _ => Reaper.close_done).

(** A callback that faults. *)
Definition handleSessionExit_faulty (session : ptr) : M Reaper.World unit :=
  panic "close of nil channel".

Definition session1 : SessionConfig := mkSession "c1" "" 0 (Some 42).

(** A reaper world: one session (pid 42), an open [done], one notification
    queued, and three children with a state change: 42 exited with code
    1, 43 stopped, 44 killed by signal 9. *)
Definition reaper_world : Reaper.World :=
  Reaper.mkWorld [] {[ 1%positive := session1 ]} {[ 42 := Some 1%positive ]}
    (Some (mkchan [Syscall.SIGCHLD] 32 false)) (Some (make_chan 0)) true
    [Reaper.Reported 42 0x100; Reaper.Reported 43 0x137f; Reaper.Reported 44 9]
    true 0.

(** A toolbox world: session [c1] bound, started, the process answers
    every signal, and [Stop] closes [t.stop] two seconds into a wait. *)
Definition toolbox_world : Toolbox.World :=
  Toolbox.mkWorld [] {[ 1%positive := session1 ]} (Some 1%positive)
    (Some (make_chan 0)) 0 None (Some 300000000) (Some 2000000000) true
    (fun _ _ _ => None).

End Sample.

(** ** Vocabulary for the statements about the reaper *)

Module ReaperSpec.
Import Reaper.

(** The children [cs] (pid, wait status), as the kernel reports them. *)
Definition reported (cs : list (Z * Syscall.WaitStatus)) : list wait4_result :=
  map (fun c => Reported (fst c) (snd c)) cs.

(** Every entry of the pid table points to a session object. *)
Definition live_table (w : World) : Prop :=
  forall (pid : Z) (p : ptr),
    childPidTable w !! pid = Some p ->
    exists (l : loc) (s : SessionConfig), p = Some l /\ sessions w !! l = Some s.

(** A callback that returns normally and keeps its hands off the
    kernel's reports and the [done] channel. *)
Definition quiet (cb : ptr -> M World unit) : Prop :=
  forall (p : ptr) (w : World),
    exists w' : World,
      cb p w = Ok tt w'
      /\ pending w' = pending w
      /\ children_left w' = children_left w
      /\ done w' = done w
      /\ (live_table w -> live_table w').

(** [passes cb k w w']: from [w], [k] iterations of the drain loop run
    one after the other, each ending in [continue], and leave [w']. *)
Inductive passes (cb : ptr -> M World unit) : nat -> World -> World -> Prop :=
| passes_O (w : World) : passes cb O w w
| passes_S (k : nat) (w w1 w' : World) :
    reap_iteration cb w = Ok Continue w1 ->
    passes cb k w1 w' ->
    passes cb (S k) w w'.

(** The events of a trace that act on the signal subscription or on a
    channel, log and trace records left out. *)
Definition is_effect (e : Event) : bool :=
  match e with
  | ESignalNotify _ | ESignalReset _ | EClose _ => true
  | _ => false
  end.

Definition effects (evs : list Event) : list Event := List.filter is_effect evs.

(** The world a run ends in, when it ends. *)
Definition final {A} (r : Res World A) : option World :=
  match r with
  | Ok _ w => Some w
  | Panic _ w => Some w
  | OutOfFuel => None
  end.

End ReaperSpec.

(** ** Vocabulary for the statements about the Toolbox *)

Module ToolboxSpec.
Import Toolbox.

(** The power-on event reaches [Start] before its timer of [d] fires. *)
Definition power_on_within (d : Z) (w : World) : bool :=
  match power_on_after w with
  | Some t => before_timer t d (tie w)
  | None => false
  end.

(** [halt] sees [t.stop] closed before its timer of [d] fires: it is
    closed already, or [Stop] closes it in time. *)
Definition stop_within (d : Z) (w : World) : bool :=
  match stop w with
  | None => false
  | Some c =>
      match buf c with
      | _ :: _ => true
      | [] => closed c ||
              match stop_after w with
              | Some t => before_timer t d (tie w)
              | None => false
              end
      end
  end.

(** The signal name [killHelper] works with. *)
Definition signal_name (name : string) : string :=
  if String.eqb name "" then ssh_SIGTERM else name.

(** The error [killHelper] makes of a failed delivery. *)
Definition signal_failure (s : SessionConfig) (e : error) : error :=
  fmt_Errorf "failed to signal %s: %s" [AStr (ID s); AErr e].

(** The grace period of [halt]. *)
Definition grace : Z := time_Second * 10.

End ToolboxSpec.

Module SampleHalt.
Import Toolbox.

(** The process takes the stop signal and is gone (exited and reaped)
    three seconds later; nothing closes [t.stop]. *)
Definition gone_after_3s (now_ pid sig : Z) : option error :=
  if now_ <? 3 * time_Second then None
  else Some (errors_New "os: process already finished").

Definition world : World :=
  mkWorld [] {[ 1%positive := Sample.session1 ]} (Some 1%positive)
    (Some (make_chan 0)) 0 None None None true gone_after_3s.

(** No session bound. *)
Definition unbound_world : World :=
  mkWorld [] ∅ None None 0 None None None true (fun _ _ _ => None).

End SampleHalt.

(** ** Device numbers and executable lookup (the reaper's file) *)

Module Ops.

(** Go's [int] is 64 bits wide; a left shift that leaves the range wraps
    around. *)
Definition int_wrap (z : Z) : Z := (z + 2 ^ 63) mod 2 ^ 64 - 2 ^ 63.

(** [Mkdev] (lines 39-41).  The masked minor parts stay far below the
    width of [int], so only the shift of the major number can wrap. *)
Definition Mkdev (majorNumber minorNumber : Z) : Z :=
  Z.lor (Z.lor (int_wrap (Z.shiftl majorNumber 8)) (Z.land minorNumber 0xff))
        (Z.shiftl (Z.land minorNumber 0xfff00) 12).

(** [os.FileMode]: the permission bits and, at bit 31, [os.ModeDir]. *)
Definition FileMode := Z.
Definition ModeDir : Z := Z.shiftl 1 31.
Definition IsDir (m : FileMode) : bool := negb (Z.land m ModeDir =? 0).

(** The literal [0111] of line 156 is octal. *)
Definition exec_bits : Z := 73.

Definition os_ErrPermission : error := errors_New "permission denied".

(** [strings.HasPrefix], [strings.Contains], [strings.TrimPrefix] and
    [strings.Split] on a one-byte separator; Go strings are byte
    sequences. *)
Fixpoint HasPrefix (s prefix : string) : bool :=
  match prefix with
  | EmptyString => true
  | String b prefix' =>
      match s with
      | EmptyString => false
      | String a s' => Ascii.eqb a b && HasPrefix s' prefix'
      end
  end.

Fixpoint Contains (s substr : string) : bool :=
  HasPrefix s substr ||
  match s with
  | EmptyString => false
  | String _ s' => Contains s' substr
  end.

(** [s[n:]] *)
Fixpoint slice_from (n : nat) (s : string) : string :=
  match n, s with
  | O, _ => s
  | S n', String _ s' => slice_from n' s'
  | S _, EmptyString => EmptyString
  end.

Definition TrimPrefix (s prefix : string) : string :=
  if HasPrefix s prefix then slice_from (String.length prefix) s else s.

Fixpoint Split (s : string) (sep : Ascii.ascii) : list string :=
  match s with
  | EmptyString => [EmptyString]
  | String a s' =>
      if Ascii.eqb a sep then EmptyString :: Split s' sep
      else match Split s' sep with
           | piece :: rest => String a piece :: rest
           | [] => [String a EmptyString]
           end
  end.

(** [filepath.ListSeparator] on unix, the colon (byte 58). *)
Definition ListSeparator : Ascii.ascii := Eval cbv in Ascii.ascii_of_nat 58.

(** [filepath.SplitList] on unix: the empty string has no elements. *)
Definition SplitList (path : string) : list string :=
  if String.eqb path "" then [] else Split path ListSeparator.

(** [dir + "/" + file] *)
Definition join (dir file : string) : string :=
  String.append dir (String.append "/" file).

Section WithStat.

(** [os.Stat(file)] followed by [d.Mode()]: the error, or the mode of the
    file the path leads to. *)
Variable Stat : string -> error + FileMode.

(** [findExecutable] (lines 151-160) *)
Definition findExecutable (file : string) : option error :=
  match Stat file with
  | inl err => Some err
  | inr m =>
      if negb (IsDir m) && negb (Z.land m exec_bits =? 0) then None
      else Some os_ErrPermission
  end.

(** The loop of lines 189-194: the first entry of [env] that starts with
    [PATH=], the empty string when there is none. *)
Fixpoint find_pathenv (env : list string) : string :=
  match env with
  | [] => ""
  | value :: rest =>
      if HasPrefix value "PATH=" then value else find_pathenv rest
  end.

(** The loop of lines 199-208: the first directory whose entry for
    [file] is executable. *)
Fixpoint search_dirs (file : string) (dirs : list string) : option string :=
  match dirs with
  | [] => None
  | dir :: rest =>
      let dir := if String.eqb dir "" then "." else dir in
      let path := join dir file in
      match findExecutable path with
      | None => Some path
      | Some _ => search_dirs file rest
      end
  end.

(** [lookPath] (lines 165-211) *)
Definition lookPath (file : string) (env : list string) (dir : string)
    : string * option error :=
  if HasPrefix file "./" || HasPrefix file "../" then
    let file := join dir file in
    match findExecutable file with
    | None => (file, None)
    | Some err => ("", Some err)
    end
  else if Contains file "/" then
    match findExecutable file with
    | None => (file, None)
    | Some err => ("", Some err)
    end
  else
    let pathenv := find_pathenv env in
    let pathval := TrimPrefix pathenv "PATH=" in
    let dirs := SplitList pathval in
    match search_dirs file dirs with
    | Some path => (path, None)
    | None => ("", Some (fmt_Errorf "%s: no such executable in PATH" [AStr file]))
    end.

End WithStat.

(** The directory a PATH element stands for. *)
Definition path_dir (dir : string) : string :=
  if String.eqb dir "" then "." else dir.

(** The elements of the search path that [lookPath] takes from [env]. *)
Definition path_dirs (env : list string) : list string :=
  SplitList (TrimPrefix (find_pathenv env) "PATH=").

End Ops.

Module SampleFs.
Import Ops.

(** A small file system: two programs, one of them twice on the PATH,
    a directory and a file without execute bits. *)
Definition files : list (string * FileMode) :=
  [("/bin", Z.lor ModeDir 493);
   ("/bin/sh", 493);
   ("/usr/bin/env", 493);
   ("/usr/bin/sh", 493);
   ("/etc/passwd", 420);
   ("/work/./run.sh", 493)].

Fixpoint lookup (file : string) (fs : list (string * FileMode)) : option FileMode :=
  match fs with
  | [] => None
  | (name, m) :: rest => if String.eqb name file then Some m else lookup file rest
  end.

Definition Stat (file : string) : error + FileMode :=
  match lookup file files with
  | Some m => inr m
  | None => inl (errors_New "no such file or directory")
  end.

End SampleFs.

(** ** Vocabulary and sample worlds for further statements *)

Module ToolboxInv.

(** [keeps m]: whatever [m] does, and also when it panics, the bound
    session and the session objects are afterwards what they were. *)
Definition keeps {A} (m : M Toolbox.World A) : Prop :=
  forall w : Toolbox.World,
    match m w with
    | Ok _ w' | Panic _ w' =>
        Toolbox.sess_session w' = Toolbox.sess_session w
        /\ Toolbox.sessions w' = Toolbox.sessions w
    | OutOfFuel => False
    end.

End ToolboxInv.

Module SampleMore.

(** A session whose configured stop signal is not a signal name. *)
Definition session2 : SessionConfig := mkSession "c2" "BOGUS" 0 (Some 43).

(** The wait fails with EINTR (4) in front of a report for pid 42. *)
Definition failing_wait_world : Reaper.World :=
  Reaper.mkWorld [] {[ 1%positive := Sample.session1 ]} {[ 42 := Some 1%positive ]}
    (Some (mkchan [] 32 false)) (Some (make_chan 0)) true
    [Reaper.Failed 4; Reaper.Reported 42 0x100] true 0.

(** The session's process (pid 42) is reported as stopped by signal 19. *)
Definition stopped_child_world : Reaper.World :=
  Reaper.mkWorld [] {[ 1%positive := Sample.session1 ]} {[ 42 := Some 1%positive ]}
    (Some (mkchan [] 32 false)) (Some (make_chan 0)) true
    [Reaper.Reported 42 0x137f] true 0.

(** The subreaper request is refused with EINVAL (22). *)
Definition refused_world : Reaper.World :=
  Reaper.mkWorld [] ∅ ∅ (Some (make_chan 32)) (Some (make_chan 0)) false [] false 22.

(** A toolbox that was never started: [t.stop] is nil, session [c1] is
    bound and its process takes every signal. *)
Definition unstarted_world : Toolbox.World :=
  Toolbox.mkWorld [] {[ 1%positive := Sample.session1 ]} (Some 1%positive)
    None 0 None None (Some 1000000000) true (fun _ _ _ => None).

(** Session [c2] is bound. *)
Definition bogus_world : Toolbox.World :=
  Toolbox.mkWorld [] {[ 2%positive := session2 ]} (Some 2%positive)
    (Some (make_chan 0)) 0 None None None true (fun _ _ _ => None).

(** A snapshot that names session [c1], and one whose map lacks its ID. *)
Definition snapshot : Toolbox.ExecutorConfig :=
  Toolbox.mkExecutorConfig "c1" (Some {[ "c1" := Some 1%positive ]}).

Definition snapshot_without : Toolbox.ExecutorConfig :=
  Toolbox.mkExecutorConfig "c1" (Some {[ "c9" := Some 9%positive ]}).

End SampleMore.

(** * Facts *)

(** ** Wait statuses *)

Section WaitStatusFacts.
Import Syscall.

(** A stopped child is neither exited nor killed by a signal. *)
Lemma Stopped_not_exit (w : WaitStatus) :
  Stopped w = true -> Exited w = false /\ Signaled w = false.
Proof.
  unfold Stopped, Exited, Signaled, stopped, exited, mask.
  intros H. apply Z.eqb_eq in H.
  assert (Hm : Z.land w 0x7F = 0x7F).
  { replace 0x7F with (Z.land 0xFF 0x7F) at 1 by reflexivity.
    rewrite Z.land_assoc, H. reflexivity. }
  rewrite Hm. split; reflexivity.
Qed.

(** A continued child is neither exited nor killed by a signal. *)
Lemma Continued_not_exit (w : WaitStatus) :
  Continued w = true -> Exited w = false /\ Signaled w = false.
Proof.
  unfold Continued. intros H. apply Z.eqb_eq in H. subst w.
  split; reflexivity.
Qed.

(** The three options make the wait non-blocking. *)
Lemma flag_has_WNOHANG : Z.land Reaper.flag WNOHANG = WNOHANG.
Proof. reflexivity. Qed.

End WaitStatusFacts.

(** ** The drain loop of the child reaper *)

Section ReaperFacts.
Import Reaper ReaperSpec.

Variable handleSessionExit : ptr -> M World unit.

Lemma select_done_open (w : World) :
  recv_ready (done w) = false -> select_done w = Ok false w.
Proof.
  unfold select_done, recv_ready. destruct (done w) as [c|]; [|reflexivity].
  destruct (buf c); [|discriminate]. intros ->. reflexivity.
Qed.

Lemma select_done_ready (w : World) :
  recv_ready (done w) = true ->
  exists w1 : World,
    select_done w = Ok true w1
    /\ trace w1 = trace w /\ pending w1 = pending w
    /\ childPidTable w1 = childPidTable w /\ sessions w1 = sessions w.
Proof.
  unfold select_done, recv_ready. destruct (done w) as [c|]; [|discriminate].
  destruct (buf c).
  - intros ->. exists w. repeat split.
  - intros _. eexists. split; [reflexivity|]. repeat split.
Qed.

Lemma not_exit_false (st : Syscall.WaitStatus) :
  Syscall.Exited st || Syscall.Signaled st = true ->
  negb (Syscall.Exited st) && negb (Syscall.Signaled st) = false.
Proof. intros H. rewrite <- negb_orb, H. reflexivity. Qed.

Lemma not_exit_true (st : Syscall.WaitStatus) :
  Syscall.Exited st || Syscall.Signaled st = false ->
  negb (Syscall.Exited st) && negb (Syscall.Signaled st) = true.
Proof. intros H. rewrite <- negb_orb, H. reflexivity. Qed.

Ltac run_reap :=
  unfold reap_iteration, removeChildPid, store_ExitStatus, Wait4, log, emit,
         modify, bind, ret; simpl.

Ltac past_wait Hopen Hpend Hz :=
  run_reap; rewrite select_done_open by exact Hopen; simpl;
  rewrite Hpend; simpl; rewrite Hz; simpl.

(** The iteration for a terminated child that has a session. *)
Lemma reap_found (w : World) (pid : Z) (st : Syscall.WaitStatus)
    (q : list wait4_result) (l : loc) (s : SessionConfig) :
  recv_ready (done w) = false ->
  pending w = Reported pid st :: q ->
  pid <> 0 ->
  Syscall.Exited st || Syscall.Signaled st = true ->
  childPidTable w !! pid = Some (Some l) ->
  sessions w !! l = Some s ->
  exists w1 : World,
    reap_iteration handleSessionExit w
      = (handleSessionExit (Some l) ;;; ret Continue) w1
    /\ childPidTable w1 = delete pid (childPidTable w)
    /\ sessions w1 = <[l := set_ExitStatus (Syscall.ExitStatus st) s]> (sessions w)
    /\ pending w1 = q
    /\ children_left w1 = children_left w
    /\ done w1 = done w.
Proof.
  intros Hopen Hpend Hpid Hexit Htab Hses.
  assert (Hz : (pid =? 0) = false) by (apply Z.eqb_neq; exact Hpid).
  eexists. split.
  - past_wait Hopen Hpend Hz. rewrite (not_exit_false _ Hexit). simpl.
    rewrite Htab. simpl. rewrite Hses. simpl. reflexivity.
  - simpl. repeat split.
Qed.

(** The iteration for a terminated child without a session record. *)
Lemma reap_zombie (w : World) (pid : Z) (st : Syscall.WaitStatus)
    (q : list wait4_result) :
  recv_ready (done w) = false ->
  pending w = Reported pid st :: q ->
  pid <> 0 ->
  Syscall.Exited st || Syscall.Signaled st = true ->
  childPidTable w !! pid = None ->
  exists w1 : World,
    reap_iteration handleSessionExit w = Ok Continue w1
    /\ childPidTable w1 = childPidTable w
    /\ sessions w1 = sessions w
    /\ pending w1 = q
    /\ children_left w1 = children_left w
    /\ done w1 = done w
    /\ trace w1 = trace w ++
         [ELog Debug "Inspecting children with status change" [];
          EWait4 (-1) flag pid st None;
          ELog Debug "Reaped process %d, return code: %d"
               [AInt pid; AInt (Syscall.ExitStatus st)];
          ELog Debug "Remove child pid: %d session: %#+v ok: %t"
               [AInt pid; APtr None; ABool false];
          ELog Warn "Reaped zombie process PID %d" [AInt pid]].
Proof.
  intros Hopen Hpend Hpid Hexit Htab.
  assert (Hz : (pid =? 0) = false) by (apply Z.eqb_neq; exact Hpid).
  eexists. split.
  - past_wait Hopen Hpend Hz. rewrite (not_exit_false _ Hexit). simpl.
    rewrite Htab. simpl. reflexivity.
  - simpl. repeat split.
    + apply delete_id. exact Htab.
    + rewrite <- !app_assoc. reflexivity.
Qed.

(** The iteration for a child that stopped or continued. *)
Lemma reap_other (w : World) (pid : Z) (st : Syscall.WaitStatus)
    (q : list wait4_result) :
  recv_ready (done w) = false ->
  pending w = Reported pid st :: q ->
  pid <> 0 ->
  Syscall.Exited st || Syscall.Signaled st = false ->
  exists w1 : World,
    reap_iteration handleSessionExit w = Ok Continue w1
    /\ childPidTable w1 = childPidTable w
    /\ sessions w1 = sessions w
    /\ pending w1 = q
    /\ children_left w1 = children_left w
    /\ done w1 = done w
    /\ trace w1 = trace w ++
         [ELog Debug "Inspecting children with status change" [];
          EWait4 (-1) flag pid st None;
          ELog Debug "Received notifcation about non-exit status change for %d: %d"
               [AInt pid; AInt st]].
Proof.
  intros Hopen Hpend Hpid Hexit.
  assert (Hz : (pid =? 0) = false) by (apply Z.eqb_neq; exact Hpid).
  eexists. split.
  - past_wait Hopen Hpend Hz. rewrite (not_exit_true _ Hexit). simpl.
    reflexivity.
  - simpl. repeat split. rewrite <- !app_assoc. reflexivity.
Qed.

(** The iteration when the kernel has nothing more to report. *)
Lemma reap_empty (w : World) :
  recv_ready (done w) = false ->
  pending w = [] ->
  exists w1 : World,
    reap_iteration handleSessionExit w = Ok Break w1
    /\ childPidTable w1 = childPidTable w
    /\ sessions w1 = sessions w
    /\ pending w1 = []
    /\ trace w1 = trace w ++
         [ELog Debug "Inspecting children with status change" [];
          (if children_left w
           then EWait4 (-1) flag 0 0 None
           else EWait4 (-1) flag (-1) 0 (Some Syscall.ECHILD));
          ELog Debug "No more child processes to reap" []].
Proof.
  intros Hopen Hpend.
  run_reap. rewrite select_done_open by exact Hopen. simpl.
  rewrite Hpend. destruct (children_left w); simpl.
  - eexists. split; [reflexivity|]. simpl. repeat split; try exact Hpend.
    rewrite <- !app_assoc. reflexivity.
  - eexists. split; [reflexivity|]. simpl. repeat split; try exact Hpend.
    rewrite <- !app_assoc. reflexivity.
Qed.

(** The iteration when shutdown was requested: no wait is attempted. *)
Lemma reap_shutdown (w : World) :
  recv_ready (done w) = true ->
  exists w1 : World,
    reap_iteration handleSessionExit w = Ok Return w1
    /\ childPidTable w1 = childPidTable w
    /\ sessions w1 = sessions w
    /\ pending w1 = pending w
    /\ trace w1 = trace w ++
         [ELog Debug "Inspecting children with status change" [];
          ELog Error "Someone called shutdown, bailing out" []].
Proof.
  intros Hready.
  destruct (select_done_ready
              (upd_trace (fun t => t ++
                 [ELog Debug "Inspecting children with status change" []]) w))
    as (w1 & Hsel & Htr & Hp & Ht & Hs); [exact Hready|].
  run_reap. rewrite Hsel. eexists. split; [reflexivity|]. simpl.
  rewrite Htr, Hp, Ht, Hs. simpl. repeat split.
  rewrite <- !app_assoc. reflexivity.
Qed.

Lemma for_loop_S (n : nat) (body : M World Ctl) (w : World) :
  for_loop (S n) body w =
  match body w with
  | Ok Continue w' => for_loop n body w'
  | Ok Break w' => Ok Break w'
  | Ok Return w' => Ok Return w'
  | Panic v w' => Panic v w'
  | OutOfFuel => OutOfFuel
  end.
Proof.
  simpl. unfold bind. destruct (body w) as [[| |] w'|v w'|]; reflexivity.
Qed.

Lemma live_table_reaped (w w1 : World) (pid : Z) (l : loc) (s : SessionConfig) :
  live_table w ->
  childPidTable w1 = delete pid (childPidTable w) ->
  sessions w1 = <[l := s]> (sessions w) ->
  live_table w1.
Proof.
  intros Hlive Ht Hs pid' p Hp. rewrite Ht in Hp.
  apply lookup_delete_Some in Hp as [_ Hp].
  destruct (Hlive pid' p Hp) as (l' & s' & -> & Hl').
  rewrite Hs. destruct (decide (l = l')) as [->|Hne].
  - exists l', s. split; [reflexivity|]. apply lookup_insert_eq.
  - exists l', s'. split; [reflexivity|]. rewrite lookup_insert_ne; assumption.
Qed.

Lemma live_table_same (w w1 : World) :
  live_table w ->
  childPidTable w1 = childPidTable w ->
  sessions w1 = sessions w ->
  live_table w1.
Proof.
  intros Hlive Ht Hs pid p Hp. rewrite Ht in Hp. rewrite Hs. exact (Hlive pid p Hp).
Qed.

(** C1.  What one iteration of the drain loop does with a pid that the
    wait reported.  (a) The child exited or was killed by a signal and
    the table holds a session for the pid: the pid is taken out of the
    table, the session's exit status becomes the one the wait status
    carries, and the exit callback runs on that session, in that world.
    (b) Same status but no record for the pid: a warning is logged,
    nothing else changes and the loop continues.  (c) Any other state
    change (stopped, continued): table and sessions are left alone, no
    callback runs and the loop continues. *)
Theorem reap_iteration_per_pid
    (w : World) (pid : Z) (st : Syscall.WaitStatus) (q : list wait4_result) :
  recv_ready (done w) = false ->
  pending w = Reported pid st :: q ->
  pid <> 0 ->
  (forall (l : loc) (s : SessionConfig),
      Syscall.Exited st || Syscall.Signaled st = true ->
      childPidTable w !! pid = Some (Some l) ->
      sessions w !! l = Some s ->
      exists w1 : World,
        reap_iteration handleSessionExit w
          = (handleSessionExit (Some l) ;;; ret Continue) w1
        /\ childPidTable w1 = delete pid (childPidTable w)
        /\ childPidTable w1 !! pid = None
        /\ sessions w1 = <[l := set_ExitStatus (Syscall.ExitStatus st) s]> (sessions w)
        /\ ExitStatus <$> (sessions w1 !! l) = Some (Syscall.ExitStatus st)
        /\ pending w1 = q)
  /\ (Syscall.Exited st || Syscall.Signaled st = true ->
      childPidTable w !! pid = None ->
      exists w1 : World,
        reap_iteration handleSessionExit w = Ok Continue w1
        /\ childPidTable w1 = childPidTable w
        /\ sessions w1 = sessions w
        /\ pending w1 = q
        /\ trace w1 = trace w ++
             [ELog Debug "Inspecting children with status change" [];
              EWait4 (-1) flag pid st None;
              ELog Debug "Reaped process %d, return code: %d"
                   [AInt pid; AInt (Syscall.ExitStatus st)];
              ELog Debug "Remove child pid: %d session: %#+v ok: %t"
                   [AInt pid; APtr None; ABool false];
              ELog Warn "Reaped zombie process PID %d" [AInt pid]])
  /\ (Syscall.Exited st || Syscall.Signaled st = false ->
      exists w1 : World,
        reap_iteration handleSessionExit w = Ok Continue w1
        /\ childPidTable w1 = childPidTable w
        /\ sessions w1 = sessions w
        /\ pending w1 = q
        /\ trace w1 = trace w ++
             [ELog Debug "Inspecting children with status change" [];
              EWait4 (-1) flag pid st None;
              ELog Debug "Received notifcation about non-exit status change for %d: %d"
                   [AInt pid; AInt st]]).
Proof.
  intros Hopen Hpend Hpid. split; [|split].
  - intros l s Hexit Htab Hses.
    destruct (reap_found w pid st q l s Hopen Hpend Hpid Hexit Htab Hses)
      as (w1 & Hrun & Ht & Hs & Hp & _ & _).
    exists w1. repeat split; try assumption.
    + rewrite Ht. apply lookup_delete_eq.
    + rewrite Hs, lookup_insert_eq. reflexivity.
  - intros Hexit Htab.
    destruct (reap_zombie w pid st q Hopen Hpend Hpid Hexit Htab)
      as (w1 & Hrun & Ht & Hs & Hp & _ & _ & Htr).
    exists w1. repeat split; assumption.
  - intros Hexit.
    destruct (reap_other w pid st q Hopen Hpend Hpid Hexit)
      as (w1 & Hrun & Ht & Hs & Hp & _ & _ & Htr).
    exists w1. repeat split; assumption.
Qed.

(** With a quiet callback and a sound table, an iteration on a reported
    child ends in [continue] with one report fewer. *)
Lemma reap_continue (w : World) (pid : Z) (st : Syscall.WaitStatus)
    (q : list wait4_result) :
  quiet handleSessionExit ->
  live_table w ->
  recv_ready (done w) = false ->
  pending w = Reported pid st :: q ->
  pid <> 0 ->
  exists w1 : World,
    reap_iteration handleSessionExit w = Ok Continue w1
    /\ pending w1 = q
    /\ children_left w1 = children_left w
    /\ done w1 = done w
    /\ live_table w1.
Proof.
  intros Hq Hlive Hopen Hpend Hpid.
  destruct (Syscall.Exited st || Syscall.Signaled st) eqn:Hexit.
  - destruct (childPidTable w !! pid) as [p|] eqn:Htab.
    + destruct (Hlive pid p Htab) as (l & s & -> & Hses).
      destruct (reap_found w pid st q l s Hopen Hpend Hpid Hexit Htab Hses)
        as (w1 & Hrun & Ht & Hs & Hp & Hc & Hd).
      destruct (Hq (Some l) w1) as (w2 & Hcb & Hp2 & Hc2 & Hd2 & Hl2).
      exists w2. split.
      * rewrite Hrun. unfold bind. rewrite Hcb. reflexivity.
      * repeat split; try congruence.
        apply Hl2. eapply live_table_reaped; eassumption.
    + destruct (reap_zombie w pid st q Hopen Hpend Hpid Hexit Htab)
        as (w1 & Hrun & Ht & Hs & Hp & Hc & Hd & _).
      exists w1. repeat split; try assumption.
      eapply live_table_same; eassumption.
  - destruct (reap_other w pid st q Hopen Hpend Hpid Hexit)
      as (w1 & Hrun & Ht & Hs & Hp & Hc & Hd & _).
    exists w1. repeat split; try assumption.
    eapply live_table_same; eassumption.
Qed.

Lemma for_loop_drains (cs : list (Z * Syscall.WaitStatus)) :
  quiet handleSessionExit ->
  forall (fuel : nat) (w : World),
    live_table w ->
    recv_ready (done w) = false ->
    pending w = reported cs ->
    Forall (fun c => fst c <> 0) cs ->
    (length cs < fuel)%nat ->
    exists (w' : World) (pre : list Event),
      for_loop fuel (reap_iteration handleSessionExit) w = Ok Break w'
      /\ pending w' = []
      /\ trace w' = pre ++
           [ELog Debug "Inspecting children with status change" [];
            (if children_left w
             then EWait4 (-1) flag 0 0 None
             else EWait4 (-1) flag (-1) 0 (Some Syscall.ECHILD));
            ELog Debug "No more child processes to reap" []].
Proof.
  intros Hq. induction cs as [|[pid st] cs IH]; intros fuel w Hlive Hopen Hpend Hpids Hfuel.
  - destruct fuel as [|n]; [simpl in Hfuel; lia|].
    destruct (reap_empty w Hopen Hpend) as (w1 & Hrun & _ & _ & Hp & Htr).
    exists w1, (trace w). rewrite for_loop_S, Hrun. repeat split; assumption.
  - destruct fuel as [|n]; [simpl in Hfuel; lia|].
    inversion Hpids as [|? ? Hpid Hrest]; subst.
    destruct (reap_continue w pid st (reported cs) Hq Hlive Hopen Hpend Hpid)
      as (w1 & Hrun & Hp & Hc & Hd & Hl).
    destruct (IH n w1) as (w' & pre & Hloop & Hp' & Htr'); try assumption.
    + rewrite Hd. exact Hopen.
    + simpl in Hfuel. lia.
    + exists w', pre. rewrite for_loop_S, Hrun. rewrite Hc in Htr'.
      repeat split; assumption.
Qed.

(** C2.  One wake-up drains everything that is reapable.  When [cs]
    children changed state before the notification is handled (the
    callback being quiet, the table sound and no shutdown requested), the
    handler for that one notification consumes all of the reports and
    returns normally; the wait that ends the loop is the one that reports
    pid 0 (children remain) or ECHILD (none remain), and it is recorded at
    debug level only. *)
Theorem handle_notification_drains_all
    (cs : list (Z * Syscall.WaitStatus)) (fuel : nat) (w : World) :
  quiet handleSessionExit ->
  live_table w ->
  recv_ready (done w) = false ->
  pending w = reported cs ->
  Forall (fun c => fst c <> 0) cs ->
  (length cs < fuel)%nat ->
  exists (w' : World) (pre : list Event),
    handle_notification handleSessionExit fuel w = Ok tt w'
    /\ pending w' = []
    /\ trace w' = pre ++
         [ELog Debug "Inspecting children with status change" [];
          (if children_left w
           then EWait4 (-1) flag 0 0 None
           else EWait4 (-1) flag (-1) 0 (Some Syscall.ECHILD));
          ELog Debug "No more child processes to reap" []].
Proof.
  intros Hq Hlive Hopen Hpend Hpids Hfuel.
  destruct (for_loop_drains cs Hq fuel w Hlive Hopen Hpend Hpids Hfuel)
    as (w' & pre & Hloop & Hp & Htr).
  exists w', pre. split; [|split; assumption].
  unfold handle_notification, with_recover, bind. rewrite Hloop. reflexivity.
Qed.

Lemma for_loop_aborts (k n : nat) (w w' : World) :
  passes handleSessionExit k w w' ->
  recv_ready (done w') = true ->
  exists w'' : World,
    for_loop (k + S n) (reap_iteration handleSessionExit) w = Ok Return w''
    /\ pending w'' = pending w'
    /\ childPidTable w'' = childPidTable w'
    /\ sessions w'' = sessions w'
    /\ trace w'' = trace w' ++
         [ELog Debug "Inspecting children with status change" [];
          ELog Error "Someone called shutdown, bailing out" []].
Proof.
  intros Hpass Hready. induction Hpass as [w|k w w1 w' Hrun Hpass IH].
  - destruct (reap_shutdown w Hready) as (w1 & Hrun & Ht & Hs & Hp & Htr).
    exists w1. rewrite Nat.add_0_l, for_loop_S, Hrun. repeat split; assumption.
  - destruct (IH Hready) as (w'' & Hloop & Hrest).
    exists w''. split; [|exact Hrest].
    change (S k + S n)%nat with (S (k + S n)). rewrite for_loop_S, Hrun.
    exact Hloop.
Qed.

(** C4.  The shutdown indicator is consulted at the top of every
    iteration, before the wait.  If it is set when an iteration starts
    (after any number [k] of iterations that ran to completion in this
    pass) the handler returns at once: the only new records are the two
    log lines, no wait is attempted, and the reports still pending in the
    kernel, the table and the sessions are as that check found them. *)
Theorem drain_aborts_on_shutdown (k n : nat) (w w' : World) :
  passes handleSessionExit k w w' ->
  recv_ready (done w') = true ->
  exists w'' : World,
    handle_notification handleSessionExit (k + S n) w = Ok tt w''
    /\ pending w'' = pending w'
    /\ childPidTable w'' = childPidTable w'
    /\ sessions w'' = sessions w'
    /\ trace w'' = trace w' ++
         [ELog Debug "Inspecting children with status change" [];
          ELog Error "Someone called shutdown, bailing out" []].
Proof.
  intros Hpass Hready.
  destruct (for_loop_aborts k n w w' Hpass Hready) as (w'' & Hloop & Hrest).
  exists w''. split; [|exact Hrest].
  unfold handle_notification, with_recover, bind. rewrite Hloop. reflexivity.
Qed.


(** The handler of a notification never lets a panic through. *)
Lemma handle_notification_no_panic (fuel : nat) (w w1 : World) (v : string) :
  handle_notification handleSessionExit fuel w <> Panic v w1.
Proof.
  unfold handle_notification, with_recover, bind, emit, modify.
  destruct (for_loop fuel (reap_iteration handleSessionExit) w); discriminate.
Qed.

End ReaperFacts.

(** ** Shutting the reaper down *)

Section StopReaperFacts.
Import Reaper ReaperSpec.

(** C5.  [stopReaper] acts in one order only.  Whatever the world, the
    effects it has on the subscription and on the two channels form an
    initial part of: remove the SIGCHLD notifier, close [done], close
    [incoming]; so [incoming] is never closed unless the notifier was
    removed and [done] was closed before.  When both channels are open
    it completes, and its whole record is the three steps in that order,
    each preceded by its log line. *)
Theorem stopReaper_order (w : World) :
  exists (w' : World) (evs : list Event),
    final (stopReaper w) = Some w'
    /\ trace w' = trace w ++ evs
    /\ effects evs `prefix_of`
         [ESignalReset Syscall.SIGCHLD; EClose "done"; EClose "incoming"]
    /\ notifying w' = false
    /\ (forall cd ci : _,
          close_chan (done w) = inr cd ->
          close_chan (incoming w) = inr ci ->
          stopReaper w = Ok tt w'
          /\ done w' = Some cd
          /\ incoming w' = Some ci
          /\ evs = [ETraceBegin "Shutting down child reaping";
                    ELog Debug "Removing the signal notifier" [];
                    ESignalReset Syscall.SIGCHLD;
                    ELog Debug "Signalling the child reaper loop" [];
                    EClose "done";
                    ELog Debug "Closing the reapers signal channel" [];
                    EClose "incoming";
                    ETraceEnd "Shutting down child reaping"]).
Proof.
  unfold stopReaper, with_defer, bind, close_done, close_incoming, signal_Reset,
         log, emit, modify.
  simpl.
  destruct (close_chan (done w)) as [vd|cd] eqn:Hd; simpl.
  - eexists. eexists. split; [reflexivity|]. simpl.
    split; [rewrite <- !app_assoc; reflexivity|].
    split; [exists [EClose "done"; EClose "incoming"]; reflexivity|].
    split; [reflexivity|]. intros cd ci Hcd. discriminate Hcd.
  - destruct (close_chan (incoming w)) as [vi|ci] eqn:Hi; simpl.
    + eexists. eexists. split; [reflexivity|]. simpl.
      split; [rewrite <- !app_assoc; reflexivity|].
      split; [exists [EClose "incoming"]; reflexivity|].
      split; [reflexivity|]. intros cd' ci' _ Hci. discriminate Hci.
    + eexists. eexists. split; [reflexivity|]. simpl.
      split; [rewrite <- !app_assoc; reflexivity|].
      split; [exists []; reflexivity|].
      split; [reflexivity|]. intros cd' ci' Hcd Hci.
      injection Hcd as <-. injection Hci as <-. repeat split.
Qed.

End StopReaperFacts.

(** ** The Toolbox extension *)

Section ToolboxFacts.
Import Toolbox ToolboxSpec.

Variable FromString : string -> error + SignalMsg.
Variable Signum : SignalMsg -> Z.
Variable UnmarshalBinary : list Byte.byte -> error + VixUserCredentialNamePassword.
Variable VixCommandRequestHeader : Type.

(** [killHelper] on a launched session: nothing is sent for a name that
    does not parse; otherwise one delivery is attempted, with the number
    of the parsed signal, and its failure comes back wrapped. *)
Lemma killHelper_launched (l : loc) (s : SessionConfig) (pid : Z) (name : string)
    (w : World) :
  sessions w !! l = Some s ->
  Process s = Some pid ->
  killHelper FromString Signum (Some l) name w =
  match FromString (signal_name name) with
  | inl e => Ok (Some e) w
  | inr sig =>
      let w1 := upd_trace (fun t => t ++
                  [ELog Info "sending signal %s (%d) to %s"
                        [AStr (Signal sig); AInt (Signum sig); AStr (ID s)]]) w in
      match os_signal w (now w) pid (Signum sig) with
      | Some e => Ok (Some (signal_failure s e)) w1
      | None => Ok None (upd_trace (fun t => t ++ [EProcessSignal pid (Signum sig)]) w1)
      end
  end.
Proof.
  intros Hs Hp. unfold killHelper, signal_name.
  destruct (FromString _) as [e|sig]; [reflexivity|].
  unfold bind, deref. rewrite Hs. unfold log, emit, modify, Process_Signal.
  rewrite Hp. simpl. destruct (os_signal w (now w) pid (Signum sig)); reflexivity.
Qed.

(** An empty name stands for the terminate signal. *)
Lemma killHelper_default (p : ptr) (w : World) :
  killHelper FromString Signum p "" w = killHelper FromString Signum p "TERM" w.
Proof. reflexivity. Qed.

Lemma before_timer_le (t d : Z) (b : bool) :
  before_timer t d b = true -> t <= d.
Proof. unfold before_timer. lia. Qed.

Lemma select_stop_spec (d : Z) (w : World) :
  0 <= d ->
  exists w' : World,
    select_stop_or_after d w = Ok (stop_within d w) w'
    /\ trace w' = trace w
    /\ sessions w' = sessions w
    /\ os_signal w' = os_signal w
    /\ now w <= now w' <= now w + d
    /\ (stop_within d w = false -> now w' = now w + d).
Proof.
  intros Hd. unfold select_stop_or_after, stop_within.
  destruct (stop w) as [c|].
  - destruct (buf c).
    + destruct (closed c); simpl.
      * exists w. repeat split; try lia; try discriminate.
      * destruct (stop_after w) as [t|].
        -- destruct (before_timer t d (tie w)) eqn:Hb.
           ++ eexists. split; [reflexivity|]. simpl.
              unfold before_timer in Hb. repeat split; try lia; try discriminate.
           ++ eexists. split; [reflexivity|]. simpl. repeat split; lia.
        -- eexists. split; [reflexivity|]. simpl. repeat split; lia.
    + eexists. split; [reflexivity|]. simpl. repeat split; try lia; try discriminate.
  - eexists. split; [reflexivity|]. simpl. repeat split; lia.
Qed.

(** C3, as the code has it.  Without a bound session [halt] returns an
    error.  With a bound, launched session it tries to deliver the
    session's stop signal (the terminate signal when none is configured);
    if the name does not parse or the delivery fails it returns that error
    at once.  After a delivery it waits for [t.stop], never longer than
    the grace period of ten seconds.  If [t.stop] is seen closed in time
    it returns success and no kill is sent.  If the grace period runs out
    it sends the kill and returns what the kill returned: success when
    the kill went through, the kill's error when it did not. *)
Theorem halt_protocol (w : World) :
  (sess_session w = None ->
     halt FromString Signum w
     = Ok (Some (fmt_Errorf "failed to halt container: not initialized yet" [])) w)
  /\ (forall (l : loc) (s : SessionConfig) (pid : Z),
        sess_session w = Some l ->
        sessions w !! l = Some s ->
        Process s = Some pid ->
        exists (r : option error) (w' : World),
          halt FromString Signum w = Ok r w'
          /\ now w <= now w' <= now w + grace
          /\ match FromString (signal_name (StopSignal s)) with
             | inl e =>
                 r = Some e /\ now w' = now w
                 /\ trace w' = trace w ++ [ELog Info "stopping %s" [AStr (ID s)]]
             | inr sig =>
                 let sent :=
                   [ELog Info "stopping %s" [AStr (ID s)];
                    ELog Info "sending signal %s (%d) to %s"
                         [AStr (Signal sig); AInt (Signum sig); AStr (ID s)]] in
                 match os_signal w (now w) pid (Signum sig) with
                 | Some e =>
                     r = Some (signal_failure s e) /\ now w' = now w
                     /\ trace w' = trace w ++ sent
                 | None =>
                     if stop_within grace w
                     then r = None
                          /\ trace w' = trace w ++ sent ++
                               [EProcessSignal pid (Signum sig);
                                ELog Info "%s has stopped" [AStr (ID s)]]
                     else now w' = now w + grace
                          /\ r = os_signal w (now w + grace) pid Syscall.SIGKILL
                          /\ trace w' = trace w ++ sent ++
                               [EProcessSignal pid (Signum sig);
                                ELog Warn "killing %s" [AStr (ID s)]] ++
                               match r with
                               | None => [EProcessKill pid]
                               | Some _ => []
                               end
                 end
             end).
Proof.
  assert (Hg : 0 <= grace) by (unfold grace, time_Second; lia).
  split.
  - intros Hnone. unfold halt, session, gets, bind. rewrite Hnone. reflexivity.
  - intros l s pid Hsess Hs Hp.
    unfold halt, session, gets, bind. rewrite Hsess. unfold deref. rewrite Hs.
    unfold log, emit, modify.
    match goal with |- context [killHelper _ _ _ _ ?w1] =>
      rewrite (killHelper_launched l s pid (StopSignal s) w1 Hs Hp)
    end.
    destruct (FromString (signal_name (StopSignal s))) as [e|sig].
    + eexists; eexists. split; [reflexivity|]. simpl. repeat split; lia.
    + simpl. destruct (os_signal w (now w) pid (Signum sig)) as [e|].
      * eexists; eexists. split; [reflexivity|]. simpl.
        repeat split; try lia. rewrite <- !app_assoc. reflexivity.
      * match goal with |- context [select_stop_or_after ?d ?w2] =>
          destruct (select_stop_spec d w2 Hg)
            as (w3 & Hsel & Htr & Hss & Hos & Hnow & Hlate);
          change (stop_within d w2) with (stop_within grace w) in Hsel, Hlate;
          rewrite Hsel
        end.
        simpl in Htr, Hss, Hos, Hnow, Hlate.
        destruct (stop_within grace w).
        -- eexists; eexists. split; [reflexivity|]. simpl.
           split; [exact Hnow|]. split; [reflexivity|].
           rewrite Htr, <- !app_assoc. reflexivity.
        -- specialize (Hlate eq_refl).
           unfold Process_Kill. rewrite Hp. simpl. rewrite Hos, Hlate.
           unfold grace in *.
           destruct (os_signal w (now w + time_Second * 10) pid Syscall.SIGKILL)
             as [e|] eqn:Hk.
           ++ eexists; eexists. split; [reflexivity|]. simpl.
              split; [lia|]. split; [exact Hlate|]. split; [reflexivity|].
              rewrite Htr, <- !app_assoc. reflexivity.
           ++ eexists; eexists. split; [reflexivity|]. simpl.
              split; [lia|]. split; [exact Hlate|]. split; [reflexivity|].
              rewrite Htr, <- !app_assoc. reflexivity.
Qed.

(** A payload that does not decode is answered with the decoder's error,
    before the session is looked at. *)
Lemma containerAuthenticate_undecodable
    (hdr : VixCommandRequestHeader) (data : list Byte.byte) (e : error) (w : World) :
  UnmarshalBinary data = inl e ->
  containerAuthenticate UnmarshalBinary VixCommandRequestHeader hdr data w
  = Ok (Some e) w.
Proof. intros H. unfold containerAuthenticate. rewrite H. reflexivity. Qed.

(** The session checks, for a call whose payload decodes to a credential
    [c]: with no session bound the answer is the not-initialized error;
    with a session bound, a name other than the session's ID gets the
    mismatch error and the session's ID itself is accepted.  Nothing else
    changes. *)
Lemma containerAuthenticate_checks
    (hdr : VixCommandRequestHeader) (data : list Byte.byte)
    (c : VixUserCredentialNamePassword) (w : World) :
  UnmarshalBinary data = inr c ->
  (sess_session w = None ->
     containerAuthenticate UnmarshalBinary VixCommandRequestHeader hdr data w
     = Ok (Some (errors_New "not yet initialized")) w)
  /\ (forall (l : loc) (s : SessionConfig),
        sess_session w = Some l ->
        sessions w !! l = Some s ->
        (Name c <> ID s ->
           containerAuthenticate UnmarshalBinary VixCommandRequestHeader hdr data w
           = Ok (Some (errors_New "failed to verify container ID")) w)
        /\ (Name c = ID s ->
           containerAuthenticate UnmarshalBinary VixCommandRequestHeader hdr data w
           = Ok None w)).
Proof.
  intros Hdec. unfold containerAuthenticate. rewrite Hdec.
  unfold session, gets, bind. split.
  - intros ->. reflexivity.
  - intros l s -> Hs. unfold deref. rewrite Hs. split.
    + intros Hne. apply String.eqb_neq in Hne. rewrite Hne. reflexivity.
    + intros Heq. apply String.eqb_eq in Heq. rewrite Heq. reflexivity.
Qed.

(** C6, as the code has it.  Every call is answered by the first of four
    checks that applies, and changes nothing.  A payload that does not
    decode gets the decoder's error, whatever the session.  For a payload
    that decodes to a credential [c]: with no session bound the answer is
    the not-initialized error; with a session bound, a name other than
    the session's ID gets the mismatch error, and the session's ID itself
    is accepted. *)
Theorem containerAuthenticate_cases
    (hdr : VixCommandRequestHeader) (data : list Byte.byte) (w : World) :
  match UnmarshalBinary data with
  | inl e =>
      containerAuthenticate UnmarshalBinary VixCommandRequestHeader hdr data w
      = Ok (Some e) w
  | inr c =>
      (sess_session w = None ->
         containerAuthenticate UnmarshalBinary VixCommandRequestHeader hdr data w
         = Ok (Some (errors_New "not yet initialized")) w)
      /\ (forall (l : loc) (s : SessionConfig),
            sess_session w = Some l ->
            sessions w !! l = Some s ->
            (Name c <> ID s ->
               containerAuthenticate UnmarshalBinary VixCommandRequestHeader hdr data w
               = Ok (Some (errors_New "failed to verify container ID")) w)
            /\ (Name c = ID s ->
               containerAuthenticate UnmarshalBinary VixCommandRequestHeader hdr data w
               = Ok None w))
  end.
Proof.
  destruct (UnmarshalBinary data) as [e|c] eqn:Hdec.
  - apply containerAuthenticate_undecodable. exact Hdec.
  - apply containerAuthenticate_checks. exact Hdec.
Qed.

(** C8.  [Start] always returns.  When the service fails to start it
    returns that error without waiting.  Otherwise it returns success
    after at most one second: if the power-on event does not come within
    that second, it has waited exactly the second and its last record is
    the warning; if the event comes in time, there is no warning. *)
Theorem Start_bounded (w : World) :
  exists (r : option error) (w' : World),
    Start w = Ok r w'
    /\ now w <= now w' <= now w + time_Second
    /\ match service_start w with
       | Some e => r = Some e /\ now w' = now w
       | None =>
           r = None
           /\ (power_on_within time_Second w = false ->
                 now w' = now w + time_Second
                 /\ trace w' = trace w ++
                      [ECall "Service.Start";
                       ELog Info "toolbox: waiting for initialization" [];
                       ELog Warn "toolbox: timeout waiting for power on event" []])
           /\ (power_on_within time_Second w = true ->
                 trace w' = trace w ++
                      [ECall "Service.Start";
                       ELog Info "toolbox: waiting for initialization" [];
                       ELog Info "toolbox: service is ready (power on event received)" []])
       end.
Proof.
  assert (Hsec : 0 <= time_Second) by (unfold time_Second; lia).
  unfold Start, Service_Start, select_on_or_after, power_on_within, bind, modify,
         log, emit, modify, ret.
  cbn -[time_Second Z.add Z.max].
  destruct (service_start w) as [e|].
  - eexists; eexists. split; [reflexivity|].
    cbn -[time_Second Z.add Z.max]. repeat split; lia.
  - cbn -[time_Second Z.add Z.max]. destruct (power_on_after w) as [t|].
    + destruct (before_timer t time_Second (tie w)) eqn:Hb.
      * apply before_timer_le in Hb.
        eexists; eexists. split; [reflexivity|].
        cbn -[time_Second Z.add Z.max].
        repeat split; try lia; try discriminate.
        intros _. rewrite <- !app_assoc. reflexivity.
      * eexists; eexists. split; [reflexivity|].
        cbn -[time_Second Z.add Z.max].
        repeat split; try lia; try discriminate.
        rewrite <- !app_assoc. reflexivity.
    + eexists; eexists. split; [reflexivity|].
      cbn -[time_Second Z.add Z.max].
      repeat split; try lia; try discriminate.
      rewrite <- !app_assoc. reflexivity.
Qed.


(** C10.  [Reload] never fails and changes at most the bound session.  A
    nil snapshot, or one whose session map is nil, leaves the binding
    alone; otherwise the binding becomes the map's entry for the
    snapshot's ID, nil when the map has no such entry. *)
Theorem Reload_binds (config : option ExecutorConfig) (w : World) :
  exists w' : World,
    Reload config w = Ok None w'
    /\ w' = set_sess_session (sess_session w') w
    /\ sess_session w' =
       match config with
       | None => sess_session w
       | Some c =>
           match Sessions c with
           | None => sess_session w
           | Some m =>
               match m !! ExecutorID c with
               | Some p => p
               | None => None
               end
           end
       end.
Proof.
  unfold Reload, bind, ret, modify.
  destruct config as [c|]; [destruct (Sessions c) as [m|]|]; simpl.
  - eexists. split; [reflexivity|]. split; [reflexivity|].
    simpl. destruct (m !! ExecutorID c); reflexivity.
  - exists w. split; [reflexivity|]. split; [|reflexivity]. destruct w; reflexivity.
  - exists w. split; [reflexivity|]. split; [|reflexivity]. destruct w; reflexivity.
Qed.

End ToolboxFacts.

(** ** The model at work on the sample worlds *)

Section Runs.
Import Reaper ReaperSpec.

Lemma sample_callback_quiet : quiet Sample.handleSessionExit.
Proof.
  intros p w. eexists. split; [reflexivity|]. simpl. repeat split.
  intros Hlive pid q Hq. exact (Hlive pid q Hq).
Qed.

Lemma sample_table_live : live_table Sample.reaper_world.
Proof.
  intros pid p Hp. simpl in Hp.
  apply lookup_singleton_Some in Hp as [_ <-].
  exists 1%positive, Sample.session1. split; reflexivity.
Qed.

(** One wake-up on the sample world: pid 42 is reaped with exit status 1,
    pid 43 only stopped, pid 44 is an adopted zombie, and the goroutine
    parks again. *)
Example reaper_goroutine_sample :
  exists w' : World,
    reaper_goroutine Sample.handleSessionExit 2 4 Sample.reaper_world = Ok Suspended w'
    /\ pending w' = []
    /\ childPidTable w' !! 42 = None
    /\ ExitStatus <$> (sessions w' !! 1%positive) = Some 1.
Proof. vm_compute. eexists. repeat split. Qed.

Lemma reap_iteration_per_pid_witness :
  exists w1 : World,
    reap_iteration Sample.handleSessionExit Sample.reaper_world
      = (Sample.handleSessionExit (Some 1%positive) ;;; ret Continue) w1
    /\ childPidTable w1 !! 42 = None
    /\ ExitStatus <$> (sessions w1 !! 1%positive) = Some (Syscall.ExitStatus 0x100).
Proof.
  destruct (reap_iteration_per_pid Sample.handleSessionExit Sample.reaper_world
              42 0x100 [Reported 43 0x137f; Reported 44 9]) as [Ha _];
    [reflexivity | reflexivity | lia |].
  destruct (Ha 1%positive Sample.session1) as (w1 & H1 & _ & H3 & _ & H5 & _);
    [reflexivity | reflexivity | reflexivity |].
  exists w1. split; [exact H1|]. split; [exact H3|exact H5].
Defined.

Lemma handle_notification_drains_all_witness :
  exists (w' : World) (pre : list Event),
    handle_notification Sample.handleSessionExit 4 Sample.reaper_world = Ok tt w'
    /\ pending w' = []
    /\ trace w' = pre ++
         [ELog Debug "Inspecting children with status change" [];
          EWait4 (-1) flag 0 0 None;
          ELog Debug "No more child processes to reap" []].
Proof.
  apply (handle_notification_drains_all Sample.handleSessionExit
           [(42, 0x100); (43, 0x137f); (44, 9)] 4 Sample.reaper_world).
  - exact sample_callback_quiet.
  - exact sample_table_live.
  - reflexivity.
  - reflexivity.
  - repeat constructor; simpl; lia.
  - simpl. lia.
Defined.

Lemma drain_aborts_on_shutdown_witness :
  exists w'' : World,
    handle_notification Sample.handleSessionExit_stopping 2 Sample.reaper_world
      = Ok tt w''
    /\ pending w'' = [Reported 43 0x137f; Reported 44 9]
    /\ childPidTable w'' !! 42 = None.
Proof.
  eassert (Hpass : passes Sample.handleSessionExit_stopping 1 Sample.reaper_world _).
  { eapply passes_S; [vm_compute; reflexivity | apply passes_O]. }
  destruct (drain_aborts_on_shutdown Sample.handleSessionExit_stopping 1 0
              Sample.reaper_world _ Hpass eq_refl) as (w'' & Hrun & Hp & Ht & _).
  exists w''. split; [exact Hrun|]. split; [exact Hp|].
  rewrite Ht. reflexivity.
Defined.


Lemma stopReaper_order_witness :
  exists w' : World,
    stopReaper Sample.reaper_world = Ok tt w'
    /\ notifying w' = false
    /\ recv_ready (done w') = true
    /\ effects (trace w')
       = [ESignalReset Syscall.SIGCHLD; EClose "done"; EClose "incoming"].
Proof.
  destruct (stopReaper_order Sample.reaper_world)
    as (w' & evs & _ & Htr & _ & Hn & Hfull).
  destruct (Hfull (mkchan [] 0 true) (mkchan [Syscall.SIGCHLD] 32 true) eq_refl eq_refl)
    as (Hrun & Hd & _ & Hevs).
  exists w'. split; [exact Hrun|]. split; [exact Hn|].
  split; [rewrite Hd; reflexivity|].
  rewrite Htr, Hevs. reflexivity.
Defined.

End Runs.

Section ToolboxRuns.
Import Toolbox ToolboxSpec.

Lemma halt_protocol_witness :
  exists (r : option error) (w' : World),
    halt Sample.FromString Sample.Signum Sample.toolbox_world = Ok r w'
    /\ now Sample.toolbox_world <= now w' <= now Sample.toolbox_world + grace.
Proof.
  destruct (halt_protocol Sample.FromString Sample.Signum Sample.toolbox_world)
    as [_ H].
  destruct (H 1%positive Sample.session1 42) as (r & w' & Hrun & Hnow & _);
    [reflexivity | reflexivity | reflexivity |].
  exists r, w'. split; [exact Hrun|exact Hnow].
Defined.

(** C3, counterexample.  The session is bound and takes its stop signal,
    nothing closes [t.stop], and the process is gone when the grace
    period ends: [halt] sends no kill that lands and returns an error. *)
Lemma halt_returns_kill_error :
  sess_session SampleHalt.world = Some 1%positive
  /\ stop_within grace SampleHalt.world = false
  /\ exists w' : World,
       halt Sample.FromString Sample.Signum SampleHalt.world
         = Ok (Some (errors_New "os: process already finished")) w'
       /\ now w' = now SampleHalt.world + grace
       /\ trace w' =
            [ELog Info "stopping %s" [AStr "c1"];
             ELog Info "sending signal %s (%d) to %s" [AStr "TERM"; AInt 15; AStr "c1"];
             EProcessSignal 42 15;
             ELog Warn "killing %s" [AStr "c1"]].
Proof.
  split; [reflexivity|]. split; [reflexivity|].
  eexists. split; [reflexivity|]. split; reflexivity.
Qed.

Lemma containerAuthenticate_checks_witness :
  containerAuthenticate Sample.UnmarshalBinary unit tt
    (String.list_byte_of_string "c1") Sample.toolbox_world = Ok None Sample.toolbox_world
  /\ containerAuthenticate Sample.UnmarshalBinary unit tt
    (String.list_byte_of_string "c1") SampleHalt.unbound_world
     = Ok (Some (errors_New "not yet initialized")) SampleHalt.unbound_world.
Proof.
  split.
  - destruct (containerAuthenticate_checks Sample.UnmarshalBinary unit tt
                (String.list_byte_of_string "c1") (mkCredential "c1" "")
                Sample.toolbox_world eq_refl) as [_ H].
    destruct (H 1%positive Sample.session1 eq_refl eq_refl) as [_ Hok].
    exact (Hok eq_refl).
  - destruct (containerAuthenticate_checks Sample.UnmarshalBinary unit tt
                (String.list_byte_of_string "c1") (mkCredential "c1" "")
                SampleHalt.unbound_world eq_refl) as [H _].
    exact (H eq_refl).
Defined.

Lemma containerAuthenticate_cases_witness :
  containerAuthenticate Sample.UnmarshalBinary unit tt
    (String.list_byte_of_string "c1") Sample.toolbox_world = Ok None Sample.toolbox_world
  /\ containerAuthenticate Sample.UnmarshalBinary unit tt
       (String.list_byte_of_string "c9") Sample.toolbox_world
     = Ok (Some (errors_New "failed to verify container ID")) Sample.toolbox_world
  /\ containerAuthenticate Sample.UnmarshalBinary unit tt [] Sample.toolbox_world
     = Ok (Some (errors_New "EOF")) Sample.toolbox_world.
Proof.
  split; [|split].
  - pose proof (containerAuthenticate_cases Sample.UnmarshalBinary unit tt
                  (String.list_byte_of_string "c1") Sample.toolbox_world) as H.
    hnf in H. destruct H as [_ H].
    destruct (H 1%positive Sample.session1 eq_refl eq_refl) as [_ Hok].
    exact (Hok eq_refl).
  - pose proof (containerAuthenticate_cases Sample.UnmarshalBinary unit tt
                  (String.list_byte_of_string "c9") Sample.toolbox_world) as H.
    hnf in H. destruct H as [_ H].
    destruct (H 1%positive Sample.session1 eq_refl eq_refl) as [Hne _].
    apply Hne. discriminate.
  - exact (containerAuthenticate_cases Sample.UnmarshalBinary unit tt []
             Sample.toolbox_world).
Defined.

(** C6, counterexample.  No session is bound and the payload is empty,
    which the decoder rejects: the call is answered with the decoder's
    error, not with the not-initialized error. *)
Lemma containerAuthenticate_decode_error_first :
  sess_session SampleHalt.unbound_world = None
  /\ containerAuthenticate Sample.UnmarshalBinary unit tt [] SampleHalt.unbound_world
     = Ok (Some (errors_New "EOF")) SampleHalt.unbound_world
  /\ containerAuthenticate Sample.UnmarshalBinary unit tt [] SampleHalt.unbound_world
     <> Ok (Some (errors_New "not yet initialized")) SampleHalt.unbound_world.
Proof.
  split; [reflexivity|]. split; [reflexivity|].
  intros H. discriminate H.
Qed.

Lemma Start_bounded_witness :
  exists w' : World,
    Start SampleHalt.world = Ok None w'
    /\ now w' = now SampleHalt.world + time_Second
    /\ last (trace w')
       = Some (ELog Warn "toolbox: timeout waiting for power on event" []).
Proof.
  destruct (Start_bounded SampleHalt.world) as (r & w' & Hrun & _ & Hcase).
  simpl in Hcase. destruct Hcase as (-> & Hlate & _).
  destruct (Hlate eq_refl) as [Hnow Htr].
  exists w'. split; [exact Hrun|]. split; [exact Hnow|].
  rewrite Htr. reflexivity.
Defined.


(** Binding, unbinding and keeping the session on [Reload]. *)
Example Reload_sample :
  let cfg m := Some (mkExecutorConfig "c1" m) in
  (exists w', Reload (cfg (Some {[ "c1" := Some 7%positive ]})) Sample.toolbox_world
              = Ok None w' /\ sess_session w' = Some 7%positive)
  /\ (exists w', Reload (cfg (Some ∅)) Sample.toolbox_world = Ok None w'
                 /\ sess_session w' = None)
  /\ Reload (cfg None) Sample.toolbox_world = Ok None Sample.toolbox_world
  /\ Reload None Sample.toolbox_world = Ok None Sample.toolbox_world.
Proof.
  repeat split; try (eexists; split; reflexivity).
Qed.

End ToolboxRuns.

(** ** Device numbers *)

Section MkdevFacts.
Import Ops.

Lemma testbit_small (a k n : Z) : 0 <= a < 2 ^ k -> k <= n -> Z.testbit a n = false.
Proof.
  intros Ha Hk. destruct (Z.eq_dec a 0) as [->|Hne]; [apply Z.bits_0|].
  apply Z.bits_above_log2; [lia|].
  assert (Z.log2 a < k); [|lia].
  apply Z.log2_lt_pow2; lia.
Qed.

Lemma int_wrap_small (z : Z) : - 2 ^ 63 <= z < 2 ^ 63 -> int_wrap z = z.
Proof. intros H. unfold int_wrap. rewrite Z.mod_small; lia. Qed.

Lemma mask_byte : 0xff = Z.ones 8. Proof. reflexivity. Qed.
Lemma mask_major : 0xfff = Z.ones 12. Proof. reflexivity. Qed.
Lemma mask_minor_high : 0xfff00 = Z.shiftl (Z.ones 12) 8. Proof. reflexivity. Qed.

Ltac bits :=
  repeat first
    [ rewrite Z.lor_spec | rewrite Z.land_spec
    | match goal with
      | |- context [Z.testbit (Z.shiftl ?a ?k) ?i] =>
          rewrite (Z.shiftl_spec a k i) by lia
      | |- context [Z.testbit (Z.shiftr ?a ?k) ?i] =>
          rewrite (Z.shiftr_spec a k i) by lia
      | |- context [Z.testbit ?a ?i] => rewrite (Z.testbit_neg_r a i) by lia
      | |- context [Z.testbit (Z.ones ?k) ?i] =>
          rewrite (Z.testbit_ones_nonneg k i) by lia
      end ].

Ltac bools :=
  repeat match goal with
  | |- context [?a <? ?b] => destruct (Z.ltb_spec a b); try lia
  end;
  repeat first [ rewrite andb_false_r | rewrite orb_false_r | rewrite andb_true_r
               | rewrite andb_false_l | rewrite orb_false_l | rewrite andb_true_l ];
  try reflexivity.

Lemma Mkdev_in_range (M m : Z) :
  0 <= M < 2 ^ 12 ->
  Mkdev M m = Z.lor (Z.lor (Z.shiftl M 8) (Z.land m (Z.ones 8)))
                    (Z.shiftl (Z.land m (Z.shiftl (Z.ones 12) 8)) 12).
Proof.
  intros HM. unfold Mkdev. rewrite int_wrap_small; [reflexivity|].
  rewrite Z.shiftl_mul_pow2 by lia. lia.
Qed.

Lemma Mkdev_major (M m : Z) :
  0 <= M < 2 ^ 12 -> Z.land (Z.shiftr (Mkdev M m) 8) 0xfff = M.
Proof.
  intros HM. rewrite Mkdev_in_range by exact HM. rewrite mask_major.
  apply Z.bits_inj'. intros n Hn. bits.
  replace (n + 8 - 8) with n by lia.
  destruct (Z.lt_ge_cases n 12).
  - destruct (Z.lt_ge_cases n 4); bits; bools.
  - rewrite (testbit_small M 12 n) by lia. bits; bools.
Qed.

Lemma Mkdev_minor (M m : Z) :
  0 <= M < 2 ^ 12 -> 0 <= m < 2 ^ 20 ->
  Z.lor (Z.land (Mkdev M m) 0xff) (Z.land (Z.shiftr (Mkdev M m) 12) 0xfff00) = m.
Proof.
  intros HM Hm. rewrite Mkdev_in_range by exact HM.
  rewrite mask_byte, mask_minor_high.
  apply Z.bits_inj'. intros n Hn. bits.
  destruct (Z.lt_ge_cases n 8).
  - bits; bools.
  - replace (n + 12 - 12) with n by lia.
    rewrite (testbit_small M 12 (n + 12 - 8)) by lia.
    destruct (Z.lt_ge_cases n 20).
    + bits; bools.
    + rewrite (testbit_small m 20 n) by lia. bits; bools.
Qed.

(** X1.  Within the ranges of a device number, twelve bits of major and
    twenty bits of minor, both parts can be read back from the result of
    [Mkdev]: the major from bits 8 to 19, the minor from the low byte and
    bits 20 to 31. *)
Theorem Mkdev_fields (M m : Z) :
  0 <= M < 2 ^ 12 -> 0 <= m < 2 ^ 20 ->
  Z.land (Z.shiftr (Mkdev M m) 8) 0xfff = M
  /\ Z.lor (Z.land (Mkdev M m) 0xff) (Z.land (Z.shiftr (Mkdev M m) 12) 0xfff00) = m.
Proof.
  intros HM Hm. split; [apply Mkdev_major; exact HM|apply Mkdev_minor; assumption].
Qed.

(** X2.  Within those ranges different (major, minor) pairs get different
    device numbers. *)
Theorem Mkdev_injective (M m M' m' : Z) :
  0 <= M < 2 ^ 12 -> 0 <= m < 2 ^ 20 ->
  0 <= M' < 2 ^ 12 -> 0 <= m' < 2 ^ 20 ->
  Mkdev M m = Mkdev M' m' -> M = M' /\ m = m'.
Proof.
  intros HM Hm HM' Hm' Heq. split.
  - rewrite <- (Mkdev_major M m HM), <- (Mkdev_major M' m' HM'), Heq. reflexivity.
  - rewrite <- (Mkdev_minor M m HM Hm), <- (Mkdev_minor M' m' HM' Hm'), Heq. reflexivity.
Qed.

(** X3.  Only the low twenty bits of the minor number count: higher bits
    are dropped, for every major and minor. *)
Theorem Mkdev_minor_truncated (M m : Z) :
  Mkdev M m = Mkdev M (Z.land m 0xfffff).
Proof.
  unfold Mkdev. rewrite <- !Z.land_assoc. reflexivity.
Qed.

(** X4.  A major number of more than twelve bits runs into the minor's
    high part: major [k * 2^12] with minor 0 gives the device number of
    major 0 with minor [k * 2^8]. *)
Theorem Mkdev_wide_major_collides (k : Z) :
  0 <= k < 2 ^ 12 ->
  Mkdev (k * 2 ^ 12) 0 = Mkdev 0 (k * 2 ^ 8).
Proof.
  intros Hk. unfold Mkdev.
  rewrite Z.shiftl_mul_pow2 by lia.
  rewrite int_wrap_small by lia.
  change (Z.shiftl 0 8) with 0. rewrite (int_wrap_small 0) by lia.
  rewrite mask_byte, mask_minor_high.
  rewrite !Z.land_0_l. change (Z.shiftl 0 12) with 0. rewrite !Z.lor_0_r.
  rewrite Z.land_ones by lia.
  rewrite Z.mod_mul by lia. rewrite Z.lor_0_l.
  rewrite <- (Z.shiftl_mul_pow2 k 8) by lia.
  rewrite <- Z.shiftl_land. rewrite Z.land_ones by lia.
  rewrite (Z.mod_small k) by lia.
  rewrite !Z.shiftl_mul_pow2 by lia. lia.
Qed.

End MkdevFacts.

(** ** Looking up executables *)

Section LookPathFacts.
Import Ops.

Variable Stat : string -> error + FileMode.

Lemma findExecutable_None (file : string) :
  findExecutable Stat file = None <->
  exists m : FileMode, Stat file = inr m /\ IsDir m = false /\ Z.land m exec_bits <> 0.
Proof.
  unfold findExecutable. destruct (Stat file) as [e|m].
  - split; [discriminate|]. intros (m & H & _). discriminate.
  - destruct (IsDir m) eqn:Hd; simpl.
    + split; [discriminate|]. intros (m' & H & Hd' & _).
      injection H as <-. congruence.
    + destruct (Z.eqb_spec (Z.land m exec_bits) 0) as [Hz|Hz]; simpl.
      * split; [discriminate|]. intros (m' & H & _ & Hx).
        injection H as <-. contradiction.
      * split; [|reflexivity]. intros _. exists m. repeat split; assumption.
Qed.

Lemma HasPrefix_Contains (s p : string) : HasPrefix s p = true -> Contains s p = true.
Proof. intros H. destruct s; cbn [Contains]; rewrite H; reflexivity. Qed.

Lemma Contains_skip (a : Ascii.ascii) (s p : string) :
  Contains s p = true -> Contains (String a s) p = true.
Proof. intros H. cbn [Contains]. rewrite H. apply orb_true_r. Qed.

Lemma HasPrefix_tail (a b : Ascii.ascii) (s p : string) :
  HasPrefix (String a s) (String b p) = true -> HasPrefix s p = true.
Proof. cbn [HasPrefix]. intros H. apply andb_true_iff in H. apply H. Qed.

Lemma no_slash_not_relative (file : string) :
  Contains file "/" = false ->
  HasPrefix file "./" || HasPrefix file "../" = false.
Proof.
  intros H. apply orb_false_iff. split.
  - destruct (HasPrefix file "./") eqn:Hp; [|reflexivity].
    destruct file as [|a s]; [discriminate|].
    apply HasPrefix_tail, HasPrefix_Contains, (Contains_skip a) in Hp. congruence.
  - destruct (HasPrefix file "../") eqn:Hp; [|reflexivity].
    destruct file as [|a [|b s]]; [discriminate| |].
    + cbn [HasPrefix] in Hp. rewrite andb_false_r in Hp. discriminate.
    + apply HasPrefix_tail, HasPrefix_tail, HasPrefix_Contains,
        (Contains_skip b), (Contains_skip a) in Hp. congruence.
Qed.

Lemma join_nonempty (d f : string) : join d f <> "".
Proof. unfold join. destruct d; discriminate. Qed.

Lemma search_dirs_Some (file : string) (dirs : list string) (p : string) :
  search_dirs Stat file dirs = Some p ->
  exists pre d post,
    dirs = pre ++ d :: post
    /\ p = join (path_dir d) file
    /\ findExecutable Stat p = None
    /\ Forall (fun d' => findExecutable Stat (join (path_dir d') file) <> None) pre.
Proof.
  induction dirs as [|d dirs IH]; [discriminate|].
  cbn [search_dirs]. fold (path_dir d).
  destruct (findExecutable Stat (join (path_dir d) file)) as [e|] eqn:Hf.
  - intros H. destruct (IH H) as (pre & d' & post & -> & Hp & Hx & Hpre).
    exists (d :: pre), d', post. repeat split; try assumption.
    constructor; [congruence|assumption].
  - intros H. injection H as <-. exists [], d, dirs. repeat split; [assumption|constructor].
Qed.

Lemma search_dirs_first (file : string) (pre post : list string) (d : string) :
  Forall (fun d' => findExecutable Stat (join (path_dir d') file) <> None) pre ->
  findExecutable Stat (join (path_dir d) file) = None ->
  search_dirs Stat file (pre ++ d :: post) = Some (join (path_dir d) file).
Proof.
  intros Hpre Hd. induction Hpre as [|d' pre Hd' Hpre IH].
  - cbn [app search_dirs]. fold (path_dir d). rewrite Hd. reflexivity.
  - cbn [app search_dirs]. fold (path_dir d').
    destruct (findExecutable Stat (join (path_dir d') file)); [exact IH|contradiction].
Qed.

Lemma search_dirs_None (file : string) (dirs : list string) :
  Forall (fun d' => findExecutable Stat (join (path_dir d') file) <> None) dirs ->
  search_dirs Stat file dirs = None.
Proof.
  intros H. induction H as [|d dirs Hd H IH]; [reflexivity|].
  cbn [search_dirs]. fold (path_dir d).
  destruct (findExecutable Stat (join (path_dir d) file)); [exact IH|contradiction].
Qed.

Lemma lookPath_plain (file : string) (env : list string) (dir : string) :
  Contains file "/" = false ->
  lookPath Stat file env dir =
  match search_dirs Stat file (path_dirs env) with
  | Some path => (path, None)
  | None => ("", Some (fmt_Errorf "%s: no such executable in PATH" [AStr file]))
  end.
Proof.
  intros H. unfold lookPath. rewrite (no_slash_not_relative file H), H. reflexivity.
Qed.

(** X5.  A path that [lookPath] returns without error leads to a file
    that exists, is not a directory and has an execute bit set. *)
Theorem lookPath_executable (file : string) (env : list string) (dir p : string) :
  lookPath Stat file env dir = (p, None) ->
  exists m : FileMode,
    Stat p = inr m /\ IsDir m = false /\ Z.land m exec_bits <> 0.
Proof.
  intros H. apply findExecutable_None. revert H. unfold lookPath.
  destruct (HasPrefix file "./" || HasPrefix file "../").
  - destruct (findExecutable Stat (join dir file)) eqn:Hf; intros H; inversion H; subst.
    exact Hf.
  - destruct (Contains file "/").
    + destruct (findExecutable Stat file) eqn:Hf; intros H; inversion H; subst.
      exact Hf.
    + destruct (search_dirs Stat file _) as [q|] eqn:Hs; intros H; inversion H; subst.
      destruct (search_dirs_Some _ _ _ Hs) as (pre & d & post & _ & _ & Hx & _).
      exact Hx.
Qed.

Lemma append_assoc (a b c : string) :
  String.append a (String.append b c) = String.append (String.append a b) c.
Proof.
  induction a as [|x a IH]; [reflexivity|].
  change (String x (String.append a (String.append b c))
          = String x (String.append (String.append a b) c)).
  f_equal. exact IH.
Qed.

(** X6.  [lookPath] answers with a path or with an error, never both and
    never neither: without error the path is not empty and ends in the
    name asked for; with an error the path is empty. *)
Theorem lookPath_path_xor_error (file : string) (env : list string) (dir : string) :
  let r := lookPath Stat file env dir in
  (snd r = None /\ fst r <> "" /\ exists pre, fst r = String.append pre file)
  \/ (fst r = "" /\ snd r <> None).
Proof.
  unfold lookPath.
  destruct (HasPrefix file "./" || HasPrefix file "../").
  - destruct (findExecutable Stat (join dir file)); cbn [fst snd].
    + right. split; [reflexivity|discriminate].
    + left. split; [reflexivity|]. split; [apply join_nonempty|].
      exists (String.append dir "/"). apply append_assoc.
  - destruct (Contains file "/") eqn:Hc.
    + destruct (findExecutable Stat file); cbn [fst snd].
      * right. split; [reflexivity|discriminate].
      * left. split; [reflexivity|]. split.
        -- intros ->. discriminate Hc.
        -- exists "". reflexivity.
    + destruct (search_dirs Stat file _) as [q|] eqn:Hs; cbn [fst snd].
      * left. destruct (search_dirs_Some _ _ _ Hs) as (pre & d & post & _ & -> & _ & _).
        split; [reflexivity|]. split; [apply join_nonempty|].
        exists (String.append (path_dir d) "/"). apply append_assoc.
      * right. split; [reflexivity|discriminate].
Qed.

(** X7.  A name that contains a slash is never looked up on the search
    path: the environment has no influence on the answer. *)
Theorem lookPath_slash_ignores_env (file : string) (env env' : list string) (dir : string) :
  Contains file "/" = true ->
  lookPath Stat file env dir = lookPath Stat file env' dir.
Proof.
  intros H. unfold lookPath. rewrite H.
  destruct (HasPrefix file "./" || HasPrefix file "../"); reflexivity.
Qed.

(** X8.  A name without a slash resolves to the first directory of the
    search path, in its order, that holds an executable of that name; an
    empty element of the path stands for the current directory. *)
Theorem lookPath_first_match (file : string) (env : list string) (dir : string)
    (pre post : list string) (d : string) :
  Contains file "/" = false ->
  path_dirs env = pre ++ d :: post ->
  Forall (fun d' => findExecutable Stat (join (path_dir d') file) <> None) pre ->
  findExecutable Stat (join (path_dir d) file) = None ->
  lookPath Stat file env dir = (join (path_dir d) file, None).
Proof.
  intros Hc Hdirs Hpre Hd. rewrite (lookPath_plain file env dir Hc), Hdirs.
  rewrite (search_dirs_first file pre post d Hpre Hd). reflexivity.
Qed.

(** X9.  When no directory of the search path holds an executable of
    that name the answer is the one error naming the file, whatever the
    individual lookups failed with. *)
Theorem lookPath_no_match (file : string) (env : list string) (dir : string) :
  Contains file "/" = false ->
  Forall (fun d' => findExecutable Stat (join (path_dir d') file) <> None)
         (path_dirs env) ->
  lookPath Stat file env dir
  = ("", Some (fmt_Errorf "%s: no such executable in PATH" [AStr file])).
Proof.
  intros Hc Hall. rewrite (lookPath_plain file env dir Hc).
  rewrite (search_dirs_None file _ Hall). reflexivity.
Qed.

Lemma find_pathenv_first (pre rest : list string) (v : string) :
  Forall (fun e => HasPrefix e "PATH=" = false) pre ->
  HasPrefix v "PATH=" = true ->
  find_pathenv (pre ++ v :: rest) = v.
Proof.
  intros Hpre Hv. induction Hpre as [|e pre He Hpre IH].
  - cbn [app find_pathenv]. rewrite Hv. reflexivity.
  - cbn [app find_pathenv]. rewrite He. exact IH.
Qed.

Lemma find_pathenv_none (env : list string) :
  Forall (fun e => HasPrefix e "PATH=" = false) env -> find_pathenv env = "".
Proof.
  intros H. induction H as [|e env He H IH]; [reflexivity|].
  cbn [find_pathenv]. rewrite He. exact IH.
Qed.

(** X10.  Only the first entry of the environment that starts with
    [PATH=] is used; what comes before it and after it is ignored. *)
Theorem lookPath_first_PATH_entry (file : string) (pre rest : list string)
    (v dir : string) :
  Forall (fun e => HasPrefix e "PATH=" = false) pre ->
  HasPrefix v "PATH=" = true ->
  lookPath Stat file (pre ++ v :: rest) dir = lookPath Stat file [v] dir.
Proof.
  intros Hpre Hv. unfold lookPath.
  rewrite (find_pathenv_first pre rest v Hpre Hv).
  cbn [find_pathenv]. rewrite Hv. reflexivity.
Qed.

(** Without any [PATH=] entry no plain name is found. *)
Lemma lookPath_without_PATH (file : string) (env : list string) (dir : string) :
  Contains file "/" = false ->
  Forall (fun e => HasPrefix e "PATH=" = false) env ->
  lookPath Stat file env dir
  = ("", Some (fmt_Errorf "%s: no such executable in PATH" [AStr file])).
Proof.
  intros Hc Henv. apply lookPath_no_match; [exact Hc|].
  unfold path_dirs. rewrite (find_pathenv_none env Henv). constructor.
Qed.

End LookPathFacts.

(** ** More on the reaper *)

Section ReaperMore.
Import Reaper ReaperSpec.

Variable handleSessionExit : ptr -> M World unit.

(** X11.  [childReaper] subscribes to SIGCHLD before it asks for the
    subreaper role.  When the request is refused it returns the errno
    and starts no goroutine, and the subscription is left in place; when
    it is granted it returns nil with the goroutine started last. *)
Theorem childReaper_subscribes_first (w : World) (c : chan Z) :
  incoming w = Some c ->
  exists w' : World,
    childReaper w
    = Ok (if prctl_errno w =? 0 then None else Some (prctl_errno w)) w'
    /\ notifying w' = true
    /\ trace w' = trace w ++
         ESignalNotify Syscall.SIGCHLD :: EPrctl SetChildSubreaper 1 ::
         (if prctl_errno w =? 0
          then [ELog Info "Started reaping child processes" []; EGo "childReaper"]
          else []).
Proof.
  intros Hinc. unfold childReaper, signal_Notify, prctl, bind, log, emit, modify, ret.
  rewrite Hinc. simpl. destruct (prctl_errno w =? 0); simpl.
  - eexists. split; [reflexivity|]. simpl. split; [reflexivity|].
    rewrite <- !app_assoc. reflexivity.
  - eexists. split; [reflexivity|]. simpl. split; [reflexivity|].
    rewrite <- !app_assoc. reflexivity.
Qed.

Lemma select_done_closed (w : World) (c : chan unit) :
  done w = Some c -> buf c = [] -> closed c = true -> select_done w = Ok true w.
Proof. unfold select_done. intros -> -> ->. reflexivity. Qed.

Lemma reap_shutdown_closed (w : World) (c : chan unit) :
  done w = Some c -> buf c = [] -> closed c = true ->
  reap_iteration handleSessionExit w
  = Ok Return (upd_trace (fun t => t ++
       [ELog Debug "Inspecting children with status change" [];
        ELog Error "Someone called shutdown, bailing out" []]) w).
Proof.
  intros Hd Hb Hc. unfold reap_iteration, log, emit, modify, bind, ret.
  simpl.
  match goal with |- context [select_done ?w1] =>
    rewrite (select_done_closed w1 c Hd Hb Hc)
  end.
  unfold upd_trace. simpl. rewrite <- !app_assoc. reflexivity.
Qed.

Lemma handle_notification_closed (d : nat) (w : World) (c : chan unit) :
  done w = Some c -> buf c = [] -> closed c = true ->
  handle_notification handleSessionExit (S d) w
  = Ok tt (upd_trace (fun t => t ++
       [ELog Debug "Inspecting children with status change" [];
        ELog Error "Someone called shutdown, bailing out" []]) w).
Proof.
  intros Hd Hb Hc. unfold handle_notification, with_recover, bind.
  rewrite for_loop_S, (reap_shutdown_closed w c Hd Hb Hc). reflexivity.
Qed.

Lemma goroutine_after_shutdown (n d : nat) (sigs : list Z) :
  forall (w : World) (cd : chan unit) (k : nat),
    done w = Some cd -> buf cd = [] -> closed cd = true ->
    incoming w = Some (mkchan sigs k true) ->
    exists w' : World,
      reaper_goroutine handleSessionExit (S (length sigs) + n) (S d) w = Ok Finished w'
      /\ pending w' = pending w
      /\ childPidTable w' = childPidTable w
      /\ sessions w' = sessions w
      /\ incoming w' = Some (mkchan [] k true).
Proof.
  induction sigs as [|s sigs IH]; intros w cd k Hd Hb Hc Hinc.
  - simpl. unfold bind, range_incoming. rewrite Hinc. simpl.
    eexists. split; [reflexivity|]. simpl. repeat split. exact Hinc.
  - change (S (length (s :: sigs)) + n)%nat with (S (S (length sigs) + n)).
    cbn [reaper_goroutine]. unfold bind at 1. unfold range_incoming.
    rewrite Hinc. cbn [buf cap closed]. unfold bind at 1.
    rewrite (handle_notification_closed d _ cd); [| exact Hd | exact Hb | exact Hc].
    match goal with |- context [reaper_goroutine _ _ _ ?w1] =>
      destruct (IH w1 cd k) as (w' & Hrun & Hp & Ht & Hs & Hi);
        [exact Hd | exact Hb | exact Hc | reflexivity |]
    end.
    exists w'. split; [exact Hrun|]. repeat split; assumption.
Qed.

Lemma stopReaper_open (w : World) (cd : chan unit) (ci : chan Z) :
  done w = Some cd -> closed cd = false ->
  incoming w = Some ci -> closed ci = false ->
  exists w1 : World,
    stopReaper w = Ok tt w1
    /\ done w1 = Some (mkchan (buf cd) (cap cd) true)
    /\ incoming w1 = Some (mkchan (buf ci) (cap ci) true)
    /\ notifying w1 = false
    /\ pending w1 = pending w
    /\ childPidTable w1 = childPidTable w
    /\ sessions w1 = sessions w.
Proof.
  intros Hd Hcd Hi Hci.
  unfold stopReaper, with_defer, bind, close_done, close_incoming, signal_Reset,
         log, emit, modify, close_chan.
  simpl. rewrite Hd, Hcd. simpl. rewrite Hi, Hci. simpl.
  eexists. split; [reflexivity|]. simpl. repeat split.
Qed.

(** X12.  After [stopReaper] the goroutine comes to its end: each
    notification still queued is handled by bailing out at once, then
    the closed channel ends the loop.  No wait is made on the way: the
    reports pending in the kernel, the table and the sessions are as
    [stopReaper] found them. *)
Theorem goroutine_finishes_after_stopReaper
    (n d : nat) (w : World) (cd : chan unit) (ci : chan Z) :
  done w = Some cd -> buf cd = [] -> closed cd = false ->
  incoming w = Some ci -> closed ci = false ->
  exists w1 w2 : World,
    stopReaper w = Ok tt w1
    /\ reaper_goroutine handleSessionExit (S (length (buf ci)) + n) (S d) w1
       = Ok Finished w2
    /\ pending w2 = pending w
    /\ childPidTable w2 = childPidTable w
    /\ sessions w2 = sessions w.
Proof.
  intros Hd Hb Hcd Hi Hci.
  destruct (stopReaper_open w cd ci Hd Hcd Hi Hci)
    as (w1 & Hstop & Hd1 & Hi1 & _ & Hp1 & Ht1 & Hs1).
  destruct (goroutine_after_shutdown n d (buf ci) w1
              (mkchan (buf cd) (cap cd) true) (cap ci))
    as (w2 & Hrun & Hp2 & Ht2 & Hs2 & _);
    [exact Hd1 | exact Hb | reflexivity | exact Hi1 |].
  exists w1, w2. split; [exact Hstop|]. split; [exact Hrun|].
  repeat split; congruence.
Qed.

(** X13.  [stopReaper] can be called once.  A second call panics on
    closing [done] again, after having reset the notifier once more, and
    leaves both channels as they were. *)
Theorem stopReaper_twice_panics (w w1 : World) :
  stopReaper w = Ok tt w1 ->
  exists w2 : World,
    stopReaper w1 = Panic "close of closed channel" w2
    /\ done w2 = done w1
    /\ incoming w2 = incoming w1
    /\ effects (trace w2) = effects (trace w1) ++ [ESignalReset Syscall.SIGCHLD].
Proof.
  unfold stopReaper, with_defer, bind, close_done, close_incoming, signal_Reset,
         log, emit, modify.
  simpl.
  destruct (close_chan (done w)) as [vd|cd] eqn:Hd; simpl; [discriminate|].
  destruct (close_chan (incoming w)) as [vi|ci] eqn:Hi; simpl; [discriminate|].
  intros H. injection H as <-. simpl.
  unfold close_chan in Hd. destruct (done w) as [c|]; [|discriminate].
  destruct (closed c); [discriminate|]. injection Hd as <-. simpl.
  eexists. split; [reflexivity|]. simpl. repeat split.
  unfold effects. rewrite !List.filter_app. simpl. rewrite !app_nil_r. reflexivity.
Qed.

(** X14.  A wait that fails ends the pass for this notification: with
    ECHILD quietly, with any other errno under a warning.  What the
    kernel would have reported next stays pending, and table and
    sessions are untouched. *)
Theorem wait4_failure_ends_pass (n : nat) (w : World) (e : Z) (q : list wait4_result) :
  recv_ready (done w) = false ->
  pending w = Failed e :: q ->
  exists w1 : World,
    handle_notification handleSessionExit (S n) w = Ok tt w1
    /\ pending w1 = q
    /\ childPidTable w1 = childPidTable w
    /\ sessions w1 = sessions w
    /\ trace w1 = trace w ++
         [ELog Debug "Inspecting children with status change" [];
          EWait4 (-1) flag (-1) 0 (Some e);
          (if e =? Syscall.ECHILD
           then ELog Debug "No more child processes to reap" []
           else ELog Warn "Wait4 got error: %v\n" [AErr (syscall_Errno e)])].
Proof.
  intros Hopen Hpend.
  unfold handle_notification, with_recover, bind at 1.
  rewrite for_loop_S.
  unfold reap_iteration, Wait4, log, emit, modify, bind, ret. simpl.
  rewrite select_done_open by exact Hopen. simpl. rewrite Hpend. simpl.
  destruct (e =? Syscall.ECHILD); simpl.
  - eexists. split; [reflexivity|]. simpl. repeat split.
    rewrite <- !app_assoc. reflexivity.
  - eexists. split; [reflexivity|]. simpl. repeat split.
    rewrite <- !app_assoc. reflexivity.
Qed.

(** X15.  A fault in the exit callback ends the pass: the handler
    records the recovery as its last act and returns, and the reports
    behind the faulting child stay pending.  That child's pid is already
    out of the table and its exit status is already stored, both having
    happened before the callback ran. *)
Theorem callback_panic_ends_pass
    (n : nat) (w : World) (pid : Z) (st : Syscall.WaitStatus)
    (q : list wait4_result) (l : loc) (s : SessionConfig) (v : string) :
  recv_ready (done w) = false ->
  pending w = Reported pid st :: q ->
  pid <> 0 ->
  Syscall.Exited st || Syscall.Signaled st = true ->
  childPidTable w !! pid = Some (Some l) ->
  sessions w !! l = Some s ->
  (forall w1 : World, exists w1' : World,
      handleSessionExit (Some l) w1 = Panic v w1'
      /\ pending w1' = pending w1
      /\ childPidTable w1' = childPidTable w1
      /\ sessions w1' = sessions w1) ->
  exists w2 : World,
    handle_notification handleSessionExit (S n) w = Ok tt w2
    /\ pending w2 = q
    /\ childPidTable w2 !! pid = None
    /\ ExitStatus <$> (sessions w2 !! l) = Some (Syscall.ExitStatus st)
    /\ last (trace w2) = Some (EPrintf "Recovered in childReaper %v" [AStr v]).
Proof.
  intros Hopen Hpend Hpid Hexit Htab Hses Hcb.
  destruct (reap_found handleSessionExit w pid st q l s Hopen Hpend Hpid Hexit Htab Hses)
    as (w1 & Hrun & Ht & Hs & Hp & _ & _).
  unfold handle_notification, with_recover, bind at 1.
  rewrite for_loop_S, Hrun. unfold bind.
  destruct (Hcb w1) as (w1' & -> & Hp' & Ht' & Hs').
  eexists. split; [reflexivity|]. simpl. repeat split.
  - rewrite Hp'. exact Hp.
  - rewrite Ht', Ht. apply lookup_delete_eq.
  - rewrite Hs', Hs, lookup_insert_eq. reflexivity.
  - apply last_snoc.
Qed.

(** X16.  A child reported as stopped or as continued, which the options
    WUNTRACED and WCONTINUED ask the kernel to report, keeps its session:
    the report is consumed and neither the table nor any session
    changes. *)
Theorem stopped_child_keeps_session
    (w : World) (pid : Z) (st : Syscall.WaitStatus) (q : list wait4_result) :
  recv_ready (done w) = false ->
  pending w = Reported pid st :: q ->
  pid <> 0 ->
  Syscall.Stopped st = true \/ Syscall.Continued st = true ->
  exists w1 : World,
    reap_iteration handleSessionExit w = Ok Continue w1
    /\ childPidTable w1 = childPidTable w
    /\ sessions w1 = sessions w
    /\ pending w1 = q.
Proof.
  intros Hopen Hpend Hpid Hst.
  assert (Hne : Syscall.Exited st || Syscall.Signaled st = false).
  { destruct Hst as [H|H].
    - destruct (Stopped_not_exit st H) as [-> ->]. reflexivity.
    - destruct (Continued_not_exit st H) as [-> ->]. reflexivity. }
  destruct (reap_other handleSessionExit w pid st q Hopen Hpend Hpid Hne)
    as (w1 & Hrun & Ht & Hs & Hp & _).
  exists w1. repeat split; assumption.
Qed.

End ReaperMore.

(** ** More on the Toolbox *)

Section ToolboxMore.
Import Toolbox ToolboxSpec ToolboxInv.

Variable FromString : string -> error + SignalMsg.
Variable Signum : SignalMsg -> Z.
Variable UnmarshalBinary : list Byte.byte -> error + VixUserCredentialNamePassword.
Variable VixCommandRequestHeader : Type.

(** X17.  [Start] installs a new, open [t.stop] before anything else, so
    also when the service then fails to start; it leaves the bound
    session and the session objects alone. *)
Theorem Start_installs_fresh_stop (w : World) :
  exists (r : option error) (w' : World),
    Start w = Ok r w'
    /\ stop w' = Some (make_chan 0)
    /\ sess_session w' = sess_session w
    /\ sessions w' = sessions w.
Proof.
  unfold Start, Service_Start, select_on_or_after, bind, modify, log, emit, modify, ret.
  cbn -[time_Second Z.add Z.max].
  destruct (service_start w) as [e|].
  - eexists; eexists. split; [reflexivity|]. repeat split.
  - cbn -[time_Second Z.add Z.max]. destruct (power_on_after w) as [t|].
    + destruct (before_timer t time_Second (tie w));
        (eexists; eexists; split; [reflexivity|]; repeat split).
    + eexists; eexists. split; [reflexivity|]. repeat split.
Qed.

(** X18.  [Stop] works once per [Start].  On a toolbox that was never
    started it panics on the nil channel, after the service was stopped
    and waited for; after a [Start] it returns nil and leaves [t.stop]
    closed; a second [Stop] panics on the closed channel. *)
Theorem Stop_once (w : World) :
  (stop w = None ->
     exists w', Stop w = Panic "close of nil channel" w'
       /\ trace w' = trace w ++ [ECall "Service.Stop"; ECall "Service.Wait"])
  /\ (forall (r : option error) (w0 : World), Start w0 = Ok r w ->
        exists w', Stop w = Ok None w' /\ recv_ready (stop w') = true)
  /\ (forall (r : option error) (w1 : World), Stop w = Ok r w1 ->
        exists w2, Stop w1 = Panic "close of closed channel" w2
          /\ stop w2 = stop w1).
Proof.
  split; [|split].
  - intros Hnil. unfold Stop, close_stop, bind, emit, modify, close_chan. simpl.
    rewrite Hnil. eexists. split; [reflexivity|]. simpl.
    rewrite <- !app_assoc. reflexivity.
  - intros r w0 Hstart.
    destruct (Start_installs_fresh_stop w0) as (r' & w' & Hrun & Hstop & _).
    rewrite Hstart in Hrun. injection Hrun as _ <-.
    unfold Stop, close_stop, bind, emit, modify, close_chan, ret. simpl.
    rewrite Hstop. simpl. eexists. split; reflexivity.
  - intros r w1. unfold Stop, close_stop, bind, emit, modify, close_chan, ret. simpl.
    destruct (stop w) as [c|]; [|discriminate].
    destruct (closed c); [discriminate|]. simpl.
    intros H. injection H as _ <-. simpl.
    eexists. split; reflexivity.
Qed.

Lemma halt_after_delivery (w : World) (l : loc) (s : SessionConfig) (pid : Z)
    (sig : SignalMsg) :
  sess_session w = Some l ->
  sessions w !! l = Some s ->
  Process s = Some pid ->
  FromString (signal_name (StopSignal s)) = inr sig ->
  os_signal w (now w) pid (Signum sig) = None ->
  halt FromString Signum w =
  (stopped <- select_stop_or_after (time_Second * 10) ;;
   if stopped then
     log Info "%s has stopped" [AStr (ID s)] ;;;
     ret None
   else
     log Warn "killing %s" [AStr (ID s)] ;;;
     Process_Kill (Process s))
    (upd_trace (fun t => t ++
       [ELog Info "stopping %s" [AStr (ID s)];
        ELog Info "sending signal %s (%d) to %s"
             [AStr (Signal sig); AInt (Signum sig); AStr (ID s)];
        EProcessSignal pid (Signum sig)]) w).
Proof.
  intros Hsess Hs Hp Hsig Hos.
  unfold halt, session, gets. unfold bind at 1. rewrite Hsess.
  unfold bind at 1. unfold deref. rewrite Hs.
  unfold bind at 1. unfold log at 1, emit, modify.
  unfold bind at 1.
  match goal with |- context [killHelper _ _ _ _ ?w1] =>
    rewrite (killHelper_launched FromString Signum l s pid (StopSignal s) w1 Hs Hp)
  end.
  rewrite Hsig. cbn -[time_Second Z.mul]. rewrite Hos.
  unfold upd_trace. cbn -[time_Second Z.mul]. rewrite <- !app_assoc. reflexivity.
Qed.

(** X19.  Once [Stop] has run, a [halt] whose stop signal is delivered
    returns success without waiting and without a kill: the clock does
    not move and the record ends with the stopped line. *)
Theorem halt_after_Stop_is_immediate
    (r : option error) (w0 w : World) (l : loc) (s : SessionConfig) (pid : Z)
    (sig : SignalMsg) :
  Stop w0 = Ok r w ->
  sess_session w = Some l ->
  sessions w !! l = Some s ->
  Process s = Some pid ->
  FromString (signal_name (StopSignal s)) = inr sig ->
  os_signal w (now w) pid (Signum sig) = None ->
  exists w' : World,
    halt FromString Signum w = Ok None w'
    /\ now w' = now w
    /\ trace w' = trace w ++
         [ELog Info "stopping %s" [AStr (ID s)];
          ELog Info "sending signal %s (%d) to %s"
               [AStr (Signal sig); AInt (Signum sig); AStr (ID s)];
          EProcessSignal pid (Signum sig);
          ELog Info "%s has stopped" [AStr (ID s)]].
Proof.
  intros Hstop Hsess Hs Hp Hsig Hos.
  rewrite (halt_after_delivery w l s pid sig Hsess Hs Hp Hsig Hos).
  assert (Hc : exists c, stop w = Some c /\ closed c = true).
  { revert Hstop. unfold Stop, close_stop, bind, emit, modify, close_chan, ret. simpl.
    destruct (stop w0) as [c|]; [|discriminate].
    destruct (closed c); [discriminate|]. simpl.
    intros H. injection H as _ <-. simpl. eexists. split; reflexivity. }
  destruct Hc as (c & Hc & Hcl).
  unfold bind, select_stop_or_after, log, emit, modify, ret.
  cbn -[time_Second Z.mul]. rewrite Hc.
  destruct (buf c); cbn -[time_Second Z.mul].
  - rewrite Hcl. cbn -[time_Second Z.mul].
    eexists. split; [reflexivity|]. cbn -[time_Second Z.mul]. split; [reflexivity|].
    rewrite <- !app_assoc. reflexivity.
  - eexists. split; [reflexivity|]. cbn -[time_Second Z.mul]. split; [reflexivity|].
    rewrite <- !app_assoc. reflexivity.
Qed.

(** X20.  On a toolbox that was never started [t.stop] is nil and can
    never be seen closed: a [halt] whose stop signal is delivered waits
    out the whole grace period, whatever happens meanwhile, and returns
    the result of the kill. *)
Theorem halt_without_Start_waits_out
    (w : World) (l : loc) (s : SessionConfig) (pid : Z) (sig : SignalMsg) :
  stop w = None ->
  sess_session w = Some l ->
  sessions w !! l = Some s ->
  Process s = Some pid ->
  FromString (signal_name (StopSignal s)) = inr sig ->
  os_signal w (now w) pid (Signum sig) = None ->
  exists w' : World,
    halt FromString Signum w = Ok (os_signal w (now w + grace) pid Syscall.SIGKILL) w'
    /\ now w' = now w + grace.
Proof.
  intros Hnil Hsess Hs Hp Hsig Hos.
  rewrite (halt_after_delivery w l s pid sig Hsess Hs Hp Hsig Hos).
  unfold bind, select_stop_or_after, log, emit, modify, ret, Process_Kill, grace.
  cbn -[time_Second Z.mul]. rewrite Hnil, Hp. cbn -[time_Second Z.mul].
  assert (Hmax : Z.max 0 (time_Second * 10) = time_Second * 10)
    by (unfold time_Second; lia).
  rewrite Hmax.
  destruct (os_signal w (now w + time_Second * 10) pid Syscall.SIGKILL);
    (eexists; split; [reflexivity|]; cbn -[time_Second Z.mul]; rewrite ?Hmax; reflexivity).
Qed.

(** X21.  After [Reload] with a snapshot whose map holds a session for
    its ID, [containerAuthenticate] accepts exactly the name that equals
    the [ID] field of that session object, and binds that session. *)
Theorem Reload_then_authenticate
    (cfg : ExecutorConfig) (m : gmap string ptr) (l : loc) (s : SessionConfig)
    (hdr : VixCommandRequestHeader) (data : list Byte.byte)
    (c : VixUserCredentialNamePassword) (w : World) :
  Sessions cfg = Some m ->
  m !! ExecutorID cfg = Some (Some l) ->
  sessions w !! l = Some s ->
  UnmarshalBinary data = inr c ->
  (Reload (Some cfg) ;;;
   containerAuthenticate UnmarshalBinary VixCommandRequestHeader hdr data) w
  = Ok (if String.eqb (Name c) (ID s) then None
        else Some (errors_New "failed to verify container ID"))
       (set_sess_session (Some l) w).
Proof.
  intros Hm Hl Hs Hdec.
  unfold bind, Reload, containerAuthenticate, session, gets, modify, ret, deref.
  rewrite Hm, Hl, Hdec. cbn -[lookup]. unfold bind. cbn -[lookup]. rewrite Hs.
  destruct (String.eqb (Name c) (ID s)); reflexivity.
Qed.

(** X22.  After [Reload] with a snapshot whose map has no session for
    its ID (no entry, or a nil one) nothing is bound: [kill] and [halt]
    return their error for the missing session, and so does
    [containerAuthenticate] on a payload that decodes; nothing is
    sent. *)
Theorem Reload_unbinds
    (cfg : ExecutorConfig) (m : gmap string ptr) (name : string)
    (hdr : VixCommandRequestHeader) (data : list Byte.byte)
    (c : VixUserCredentialNamePassword) (w : World) :
  Sessions cfg = Some m ->
  m !! ExecutorID cfg = None \/ m !! ExecutorID cfg = Some None ->
  let w' := set_sess_session None w in
  (Reload (Some cfg) ;;; kill FromString Signum name) w
  = Ok (Some (fmt_Errorf "failed to kill container: process not found" [])) w'
  /\ (Reload (Some cfg) ;;; halt FromString Signum) w
     = Ok (Some (fmt_Errorf "failed to halt container: not initialized yet" [])) w'
  /\ (UnmarshalBinary data = inr c ->
      (Reload (Some cfg) ;;;
       containerAuthenticate UnmarshalBinary VixCommandRequestHeader hdr data) w
      = Ok (Some (errors_New "not yet initialized")) w').
Proof.
  intros Hm Hl w'.
  assert (Hb : default None (m !! ExecutorID cfg) = None)
    by (destruct Hl as [-> | ->]; reflexivity).
  unfold bind, Reload, kill, halt, containerAuthenticate, session, gets, modify, ret.
  rewrite Hm. cbn -[lookup]. rewrite Hb. cbn -[lookup].
  split; [reflexivity|]. split; [reflexivity|].
  intros ->. reflexivity.
Qed.

(** X23.  A snapshot with a session map replaces the binding whatever
    was reloaded before it. *)
Theorem Reload_last_wins (c1 : option ExecutorConfig) (cfg : ExecutorConfig)
    (m : gmap string ptr) (w : World) :
  Sessions cfg = Some m ->
  (Reload c1 ;;; Reload (Some cfg)) w = Reload (Some cfg) w.
Proof.
  intros Hm. unfold bind, Reload, modify, ret. rewrite Hm.
  destruct c1 as [c|]; [destruct (Sessions c)|]; reflexivity.
Qed.

(** X24.  A signal name that does not parse is reported before the
    session or its process is touched: [killHelper] returns the parse
    error for any session pointer, [kill] returns it for any bound
    session, and [halt] returns it right after its first log line,
    without waiting; in each case nothing is sent. *)
Theorem bad_signal_name_first (w : World) (p : ptr) (name : string) (e : error) :
  FromString (signal_name name) = inl e ->
  killHelper FromString Signum p name w = Ok (Some e) w
  /\ (forall l, sess_session w = Some l ->
        kill FromString Signum name w = Ok (Some e) w)
  /\ (forall l s, sess_session w = Some l -> sessions w !! l = Some s ->
        StopSignal s = name ->
        halt FromString Signum w
        = Ok (Some e) (upd_trace (fun t => t ++ [ELog Info "stopping %s" [AStr (ID s)]]) w)).
Proof.
  intros Hbad.
  assert (Hk : forall q w1, killHelper FromString Signum q name w1 = Ok (Some e) w1).
  { intros q w1. unfold killHelper. fold (signal_name name). rewrite Hbad. reflexivity. }
  split; [apply Hk|]. split.
  - intros l Hl. unfold kill, session, gets, bind. rewrite Hl. apply Hk.
  - intros l s Hl Hs <-. unfold halt, session, gets, bind. rewrite Hl.
    unfold deref. rewrite Hs. unfold log, emit, modify. rewrite Hk. reflexivity.
Qed.

Lemma keeps_ret {A} (a : A) : keeps (ret a).
Proof. intros w. split; reflexivity. Qed.

Lemma keeps_bind {A B} (m : M World A) (k : A -> M World B) :
  keeps m -> (forall a, keeps (k a)) -> keeps (bind m k).
Proof.
  intros Hm Hk w. unfold bind. specialize (Hm w).
  destruct (m w) as [a w1|v w1|]; [|exact Hm|exact Hm].
  specialize (Hk a w1). destruct (k a w1) as [b w2|v w2|]; [| |exact Hk].
  - destruct Hm as [H1 H2], Hk as [H3 H4]. split; congruence.
  - destruct Hm as [H1 H2], Hk as [H3 H4]. split; congruence.
Qed.

Lemma keeps_emit (e : Event) : keeps (emit e).
Proof. intros w. split; reflexivity. Qed.

Lemma keeps_log (lvl : Level) (f : string) (a : list Arg) : keeps (log lvl f a).
Proof. apply keeps_emit. Qed.

Lemma keeps_session : keeps session.
Proof. intros w. split; reflexivity. Qed.

Lemma keeps_deref (p : ptr) : keeps (deref p).
Proof.
  intros w. unfold deref. destruct p as [l|]; [|split; reflexivity].
  destruct (sessions w !! l); split; reflexivity.
Qed.

Lemma keeps_Process_Signal (p : option Z) (sig : Z) : keeps (Process_Signal p sig).
Proof.
  intros w. unfold Process_Signal. destruct p as [pid|]; [|split; reflexivity].
  destruct (os_signal w (now w) pid sig); split; reflexivity.
Qed.

Lemma keeps_Process_Kill (p : option Z) : keeps (Process_Kill p).
Proof.
  intros w. unfold Process_Kill. destruct p as [pid|]; [|split; reflexivity].
  destruct (os_signal w (now w) pid Syscall.SIGKILL); split; reflexivity.
Qed.

Lemma keeps_select_stop (d : Z) : keeps (select_stop_or_after d).
Proof.
  intros w. unfold select_stop_or_after.
  destruct (stop w) as [c|]; [|split; reflexivity].
  destruct (buf c); [|split; reflexivity].
  destruct (closed c); [split; reflexivity|].
  destruct (stop_after w) as [t|]; [|split; reflexivity].
  destruct (before_timer t d (tie w)); split; reflexivity.
Qed.

Lemma keeps_killHelper (p : ptr) (name : string) : keeps (killHelper FromString Signum p name).
Proof.
  unfold killHelper. destruct (FromString _) as [e|sig]; [apply keeps_ret|].
  apply keeps_bind; [apply keeps_deref|]. intros s.
  apply keeps_bind; [apply keeps_log|]. intros _.
  apply keeps_bind; [apply keeps_Process_Signal|]. intros [e|]; apply keeps_ret.
Qed.

Lemma keeps_kill (name : string) : keeps (kill FromString Signum name).
Proof.
  unfold kill. apply keeps_bind; [apply keeps_session|].
  intros [l|]; [apply keeps_killHelper|apply keeps_ret].
Qed.

(** X25.  Of the entry points of the extension only [Reload] changes the
    bound session: [halt], [containerStartCommand],
    [containerAuthenticate], [Start] and [Stop] leave the binding and
    every session object as they were, on every path and also when they
    panic. *)
Theorem only_Reload_rebinds :
  keeps (halt FromString Signum)
  /\ (forall r, keeps (containerStartCommand FromString Signum r))
  /\ (forall hdr data,
        keeps (containerAuthenticate UnmarshalBinary VixCommandRequestHeader hdr data))
  /\ keeps Start
  /\ keeps Stop.
Proof.
  split; [|split; [|split; [|split]]].
  - unfold halt. apply keeps_bind; [apply keeps_session|].
    intros [l|]; [|apply keeps_ret].
    apply keeps_bind; [apply keeps_deref|]. intros s.
    apply keeps_bind; [apply keeps_log|]. intros _.
    apply keeps_bind; [apply keeps_killHelper|]. intros [e|]; [apply keeps_ret|].
    apply keeps_bind; [apply keeps_select_stop|]. intros [|].
    + apply keeps_bind; [apply keeps_log|]. intros _. apply keeps_ret.
    + apply keeps_bind; [apply keeps_log|]. intros _. apply keeps_Process_Kill.
  - intros [r|]; unfold containerStartCommand; [|intros w; split; reflexivity].
    destruct (String.eqb (ProgramPath r) "kill"); [|apply keeps_ret].
    apply keeps_bind; [apply keeps_kill|]. intros e. apply keeps_ret.
  - intros hdr data. unfold containerAuthenticate.
    destruct (UnmarshalBinary data) as [e|c]; [apply keeps_ret|].
    apply keeps_bind; [apply keeps_session|]. intros [l|]; [|apply keeps_ret].
    apply keeps_bind; [apply keeps_deref|]. intros s.
    destruct (negb _); apply keeps_ret.
  - unfold Start.
    apply keeps_bind; [intros w; split; reflexivity|]. intros _.
    apply keeps_bind; [intros w; split; reflexivity|]. intros [e|]; [apply keeps_ret|].
    apply keeps_bind; [apply keeps_log|]. intros _.
    apply keeps_bind.
    + intros w. unfold select_on_or_after. destruct (power_on_after w) as [t|];
        [destruct (before_timer t time_Second (tie w))|]; split; reflexivity.
    + intros [|]; (apply keeps_bind; [|intros _; apply keeps_ret]);
        [apply keeps_ret|apply keeps_log].
  - unfold Stop.
    apply keeps_bind; [apply keeps_emit|]. intros _.
    apply keeps_bind; [apply keeps_emit|]. intros _.
    apply keeps_bind; [|intros _; apply keeps_ret].
    intros w. unfold close_stop. destruct (close_chan (stop w)); split; reflexivity.
Qed.

End ToolboxMore.

(** ** The further statements at work on the sample worlds *)

Section MoreRuns.
Import Ops.

Lemma Mkdev_fields_witness :
  Z.land (Z.shiftr (Mkdev 8 1) 8) 0xfff = 8
  /\ Z.lor (Z.land (Mkdev 8 1) 0xff) (Z.land (Z.shiftr (Mkdev 8 1) 12) 0xfff00) = 1.
Proof. apply (Mkdev_fields 8 1); lia. Defined.

Lemma Mkdev_injective_witness : 259 = 259 /\ 70000 = 70000.
Proof.
  apply (Mkdev_injective 259 70000 259 70000); [lia | lia | lia | lia | reflexivity].
Defined.

Lemma Mkdev_wide_major_collides_witness :
  Mkdev (1 * 2 ^ 12) 0 = Mkdev 0 (1 * 2 ^ 8).
Proof. apply (Mkdev_wide_major_collides 1). lia. Defined.

Lemma lookPath_executable_witness :
  exists m : FileMode,
    SampleFs.Stat "/usr/bin/sh" = inr m /\ IsDir m = false /\ Z.land m exec_bits <> 0.
Proof.
  apply (lookPath_executable SampleFs.Stat "sh"
           ["HOME=/root"; "PATH=/usr/bin:/bin"] "/work" "/usr/bin/sh").
  reflexivity.
Defined.

Lemma lookPath_slash_ignores_env_witness :
  lookPath SampleFs.Stat "./run.sh" ["PATH=/bin"] "/work"
  = lookPath SampleFs.Stat "./run.sh" [] "/work".
Proof.
  apply (lookPath_slash_ignores_env SampleFs.Stat "./run.sh" ["PATH=/bin"] [] "/work").
  reflexivity.
Defined.

Lemma lookPath_first_match_witness :
  lookPath SampleFs.Stat "env" ["PATH=/bin::/usr/bin"] "/work"
  = (join (path_dir "/usr/bin") "env", None).
Proof.
  apply (lookPath_first_match SampleFs.Stat "env" ["PATH=/bin::/usr/bin"] "/work"
           ["/bin"; ""] [] "/usr/bin").
  - reflexivity.
  - reflexivity.
  - repeat constructor; vm_compute; discriminate.
  - reflexivity.
Defined.

Lemma lookPath_no_match_witness :
  lookPath SampleFs.Stat "passwd" ["PATH=/etc:/bin"] "/work"
  = ("", Some (fmt_Errorf "%s: no such executable in PATH" [AStr "passwd"])).
Proof.
  apply (lookPath_no_match SampleFs.Stat "passwd" ["PATH=/etc:/bin"] "/work").
  - reflexivity.
  - repeat constructor; vm_compute; discriminate.
Defined.

Lemma lookPath_first_PATH_entry_witness :
  lookPath SampleFs.Stat "sh" (["HOME=/root"] ++ "PATH=/usr/bin" :: ["PATH=/bin"]) "/work"
  = lookPath SampleFs.Stat "sh" ["PATH=/usr/bin"] "/work".
Proof.
  apply (lookPath_first_PATH_entry SampleFs.Stat "sh" ["HOME=/root"] ["PATH=/bin"]
           "PATH=/usr/bin" "/work").
  - repeat constructor.
  - reflexivity.
Defined.

End MoreRuns.

Section MoreReaperRuns.
Import Reaper ReaperSpec.

Lemma childReaper_subscribes_first_witness :
  exists w' : World,
    childReaper SampleMore.refused_world = Ok (Some 22) w'
    /\ notifying w' = true
    /\ trace w' = [ESignalNotify Syscall.SIGCHLD; EPrctl SetChildSubreaper 1].
Proof.
  destruct (childReaper_subscribes_first SampleMore.refused_world (make_chan 32) eq_refl)
    as (w' & Hrun & Hn & Htr).
  exists w'. split; [exact Hrun|]. split; [exact Hn|exact Htr].
Defined.

Lemma goroutine_finishes_after_stopReaper_witness :
  exists w1 w2 : World,
    stopReaper Sample.reaper_world = Ok tt w1
    /\ reaper_goroutine Sample.handleSessionExit 2 1 w1 = Ok Finished w2
    /\ pending w2 = pending Sample.reaper_world
    /\ childPidTable w2 = childPidTable Sample.reaper_world
    /\ sessions w2 = sessions Sample.reaper_world.
Proof.
  apply (goroutine_finishes_after_stopReaper Sample.handleSessionExit 0 0
           Sample.reaper_world (make_chan 0) (mkchan [Syscall.SIGCHLD] 32 false));
    reflexivity.
Defined.

Lemma stopReaper_twice_panics_witness :
  exists w1 w2 : World,
    stopReaper Sample.reaper_world = Ok tt w1
    /\ stopReaper w1 = Panic "close of closed channel" w2
    /\ incoming w2 = incoming w1.
Proof.
  destruct (stopReaper_open Sample.reaper_world (make_chan 0)
              (mkchan [Syscall.SIGCHLD] 32 false) eq_refl eq_refl eq_refl eq_refl)
    as (w1 & Hstop & _).
  destruct (stopReaper_twice_panics Sample.reaper_world w1 Hstop)
    as (w2 & Hagain & _ & Hinc & _).
  exists w1, w2. split; [exact Hstop|]. split; [exact Hagain|exact Hinc].
Defined.

Lemma wait4_failure_ends_pass_witness :
  exists w1 : World,
    handle_notification Sample.handleSessionExit 1 SampleMore.failing_wait_world
      = Ok tt w1
    /\ pending w1 = [Reported 42 0x100]
    /\ childPidTable w1 = childPidTable SampleMore.failing_wait_world.
Proof.
  destruct (wait4_failure_ends_pass Sample.handleSessionExit 0
              SampleMore.failing_wait_world 4 [Reported 42 0x100] eq_refl eq_refl)
    as (w1 & Hrun & Hp & Ht & _).
  exists w1. split; [exact Hrun|]. split; [exact Hp|exact Ht].
Defined.

Lemma callback_panic_ends_pass_witness :
  exists w2 : World,
    handle_notification Sample.handleSessionExit_faulty 1 Sample.reaper_world = Ok tt w2
    /\ pending w2 = [Reported 43 0x137f; Reported 44 9]
    /\ childPidTable w2 !! 42 = None
    /\ ExitStatus <$> (sessions w2 !! 1%positive) = Some (Syscall.ExitStatus 0x100).
Proof.
  destruct (callback_panic_ends_pass Sample.handleSessionExit_faulty 0
              Sample.reaper_world 42 0x100 [Reported 43 0x137f; Reported 44 9]
              1%positive Sample.session1 "close of nil channel")
    as (w2 & Hrun & Hp & Ht & Hs & _).
  - reflexivity.
  - reflexivity.
  - lia.
  - reflexivity.
  - reflexivity.
  - reflexivity.
  - intros w1. exists w1. repeat split.
  - exists w2. split; [exact Hrun|]. split; [exact Hp|]. split; [exact Ht|exact Hs].
Defined.

Lemma stopped_child_keeps_session_witness :
  exists w1 : World,
    reap_iteration Sample.handleSessionExit SampleMore.stopped_child_world
      = Ok Continue w1
    /\ childPidTable w1 = childPidTable SampleMore.stopped_child_world
    /\ sessions w1 = sessions SampleMore.stopped_child_world
    /\ pending w1 = [].
Proof.
  apply (stopped_child_keeps_session Sample.handleSessionExit
           SampleMore.stopped_child_world 42 0x137f []).
  - reflexivity.
  - reflexivity.
  - lia.
  - left. reflexivity.
Defined.

End MoreReaperRuns.

Section MoreToolboxRuns.
Import Toolbox ToolboxSpec ToolboxInv.

Lemma Stop_once_witness :
  exists (r : option error) (w w' : World),
    Start Sample.toolbox_world = Ok r w
    /\ Stop w = Ok None w'
    /\ recv_ready (stop w') = true.
Proof.
  destruct (Start_installs_fresh_stop Sample.toolbox_world) as (r & w & Hrun & _).
  destruct (Stop_once w) as (_ & H & _).
  destruct (H r Sample.toolbox_world Hrun) as (w' & Hstop & Hready).
  exists r, w, w'. split; [exact Hrun|]. split; [exact Hstop|exact Hready].
Defined.

Lemma halt_after_Stop_is_immediate_witness :
  exists w w' : World,
    Stop Sample.toolbox_world = Ok None w
    /\ halt Sample.FromString Sample.Signum w = Ok None w'
    /\ now w' = now w.
Proof.
  eassert (Hstop : Stop Sample.toolbox_world = Ok None _) by reflexivity.
  destruct (halt_after_Stop_is_immediate Sample.FromString Sample.Signum None
              Sample.toolbox_world _ 1%positive Sample.session1 42
              (mkSignalMsg "TERM") Hstop)
    as (w' & Hrun & Hnow & _);
    [reflexivity | reflexivity | reflexivity | reflexivity | reflexivity |].
  eexists. exists w'. split; [exact Hstop|]. split; [exact Hrun|exact Hnow].
Defined.

Lemma halt_without_Start_waits_out_witness :
  exists w' : World,
    halt Sample.FromString Sample.Signum SampleMore.unstarted_world = Ok None w'
    /\ now w' = now SampleMore.unstarted_world + grace.
Proof.
  apply (halt_without_Start_waits_out Sample.FromString Sample.Signum
           SampleMore.unstarted_world 1%positive Sample.session1 42
           (mkSignalMsg "TERM")); reflexivity.
Defined.

Lemma Reload_then_authenticate_witness :
  (Reload (Some SampleMore.snapshot) ;;;
   containerAuthenticate Sample.UnmarshalBinary unit tt
     (String.list_byte_of_string "c1")) SampleHalt.world
  = Ok None (set_sess_session (Some 1%positive) SampleHalt.world).
Proof.
  apply (Reload_then_authenticate Sample.UnmarshalBinary unit SampleMore.snapshot
           {[ "c1" := Some 1%positive ]} 1%positive Sample.session1 tt
           (String.list_byte_of_string "c1") (mkCredential "c1" "") SampleHalt.world);
    reflexivity.
Defined.

Lemma Reload_unbinds_witness :
  (Reload (Some SampleMore.snapshot_without) ;;;
   halt Sample.FromString Sample.Signum) Sample.toolbox_world
  = Ok (Some (fmt_Errorf "failed to halt container: not initialized yet" []))
       (set_sess_session None Sample.toolbox_world).
Proof.
  destruct (Reload_unbinds Sample.FromString Sample.Signum Sample.UnmarshalBinary unit
              SampleMore.snapshot_without {[ "c9" := Some 9%positive ]} "" tt []
              (mkCredential "" "") Sample.toolbox_world eq_refl (or_introl eq_refl))
    as (_ & H & _).
  exact H.
Defined.

Lemma Reload_last_wins_witness :
  (Reload (Some SampleMore.snapshot_without) ;;; Reload (Some SampleMore.snapshot))
    SampleHalt.unbound_world
  = Reload (Some SampleMore.snapshot) SampleHalt.unbound_world.
Proof.
  apply (Reload_last_wins (Some SampleMore.snapshot_without) SampleMore.snapshot
           {[ "c1" := Some 1%positive ]} SampleHalt.unbound_world).
  reflexivity.
Defined.

Lemma bad_signal_name_first_witness :
  halt Sample.FromString Sample.Signum SampleMore.bogus_world
  = Ok (Some (fmt_Errorf "unsupported signal name: %s" [AStr "BOGUS"]))
       (upd_trace (fun t => t ++ [ELog Info "stopping %s" [AStr "c2"]])
                  SampleMore.bogus_world).
Proof.
  destruct (bad_signal_name_first Sample.FromString Sample.Signum
              SampleMore.bogus_world None "BOGUS"
              (fmt_Errorf "unsupported signal name: %s" [AStr "BOGUS"]) eq_refl)
    as (_ & _ & H).
  exact (H 2%positive SampleMore.session2 eq_refl eq_refl eq_refl).
Defined.

End MoreToolboxRuns.
